(** * PyTCP: a shallow embedding of the stack timer, the TCP session state
      machine, the DHCP codec and the ARP address claim.

    Python integers are unbounded, so every [int] of the source is a [Z] and
    no operation wraps.  A Python object that several functions mutate is a
    record that is passed in and returned; a [dict] is a [gmap]; a semaphore is
    the [nat] it counts; an operation that blocks returns [None] while it would
    block; an exception is a value of [exn]. *)

From Stdlib Require Import ZArith List Bool Lia ZifyBool String Ascii.
From Stdlib.Strings Require Import Byte.
From stdpp Require Import base option gmap strings list pretty.

Open Scope Z_scope.

(** ** Python values that several modules share *)

(** The exceptions the modelled code can raise. *)
Inductive exn : Type :=
  | TypeError
  | KeyError
  | AttributeError (name : string)
  | IndexError
  | ValueError
  | StructError
  | OSError.

(** Truth value of an [int]: [if n:]. *)
Definition truthy (n : Z) : bool := negb (n =? 0).

(** [all({...})] and [any({...})] over a set of truth values. *)
Definition py_all (l : list bool) : bool := forallb (fun b => b) l.
Definition py_any (l : list bool) : bool := existsb (fun b => b) l.

(** [len(l)] as an [int]. *)
Definition len {A : Type} (l : list A) : Z := Z.of_nat (length l).

(** The index a slice bound [i] denotes in a sequence of [n] elements:
    negative bounds count from the end, and the result is clipped to
    [0..n]. *)
Definition slice_index (n : nat) (i : Z) : nat :=
  if i <? 0 then Z.to_nat (Z.max 0 (Z.of_nat n + i))
  else Nat.min n (Z.to_nat i).

(** [l[:i]] *)
Definition slice_to {A : Type} (l : list A) (i : Z) : list A :=
  firstn (slice_index (length l) i) l.

(** [l[i:]]; also what [del l[:i]] leaves. *)
Definition slice_from {A : Type} (l : list A) (i : Z) : list A :=
  skipn (slice_index (length l) i) l.

(** [l[i:j]] *)
Definition slice {A : Type} (l : list A) (i j : Z) : list A :=
  let a := slice_index (length l) i in
  let b := slice_index (length l) j in
  firstn (b - a) (skipn a l).

(** ** stack_timer.py *)

Module StackTimer.

Section Task.

(** [Method] stands for a registered callable with its arguments, [Stop]
    for a registered stop condition, and [W] for everything a callable can
    read or change. *)
Context {W Method Stop : Type}.
Variable invoke : Method -> W -> option exn * W.
Variable holds : Stop -> W -> bool.

(** class StackTimerTask *)
Record StackTimerTask : Type := mkTask {
  method : Method;
  delay : Z;
  delay_exp : bool;
  repeat_count : Z;
  stop_condition : option Stop;
  remaining_delay : Z;
  delay_exp_factor : nat
}.

(** StackTimerTask.__init__ *)
Definition new_task (m : Method) (d : Z) (e : bool) (r : Z)
    (s : option Stop) : StackTimerTask :=
  {| method := m; delay := d; delay_exp := e; repeat_count := r;
     stop_condition := s; remaining_delay := d; delay_exp_factor := 0 |}.

Definition with_remaining (d : Z) (t : StackTimerTask) : StackTimerTask :=
  {| method := method t; delay := delay t; delay_exp := delay_exp t;
     repeat_count := repeat_count t; stop_condition := stop_condition t;
     remaining_delay := d; delay_exp_factor := delay_exp_factor t |}.

(** [self.stop_condition and self.stop_condition()] *)
Definition stops (t : StackTimerTask) (w : W) : bool :=
  match stop_condition t with
  | None => false
  | Some c => holds c w
  end.

(** The three assignments under [if self.repeat_count:]. *)
Definition reschedule (t : StackTimerTask) : StackTimerTask :=
  {| method := method t; delay := delay t; delay_exp := delay_exp t;
     repeat_count :=
       if repeat_count t >? 0 then repeat_count t - 1 else repeat_count t;
     stop_condition := stop_condition t;
     remaining_delay :=
       if delay_exp t
       then delay t * Z.shiftl 1 (Z.of_nat (delay_exp_factor t))
       else delay t;
     delay_exp_factor := S (delay_exp_factor t) |}.

(** StackTimerTask.tick.  The result is the exception the callable raised
    (if any), the task and the world. *)
Definition tick (t : StackTimerTask) (w : W)
    : option exn * StackTimerTask * W :=
  let t1 := with_remaining (remaining_delay t - 1) t in
  if stops t1 w then (None, with_remaining 0 t1, w)
  else if truthy (remaining_delay t1) then (None, t1, w)
  else
    match invoke (method t1) w with
    | (Some e, w') => (Some e, t1, w')
    | (None, w') =>
        if truthy (repeat_count t1) then (None, reschedule t1, w')
        else (None, t1, w')
    end.

(** [for task in self.tasks: task.tick()]: the tasks are ticked in order;
    an exception ends the loop and leaves the later tasks as they were. *)
Fixpoint tick_tasks (ts : list StackTimerTask) (w : W)
    : option exn * list StackTimerTask * W :=
  match ts with
  | [] => (None, [], w)
  | t :: rest =>
      match tick t w with
      | (Some e, t', w') => (Some e, t' :: rest, w')
      | (None, t', w') =>
          let '(r, rest', w'') := tick_tasks rest w' in
          (r, t' :: rest', w'')
      end
  end.

(** [self.tasks = [_ for _ in self.tasks if _.remaining_delay]] *)
Definition reap (ts : list StackTimerTask) : list StackTimerTask :=
  List.filter (fun t => truthy (remaining_delay t)) ts.



End Task.

Arguments StackTimerTask : clear implicits.

(** The named timers, [self.timers]. *)

(** [for name in self.timers: self.timers[name] -= 1] *)
Definition decrement_timers (tm : gmap string Z) : gmap string Z :=
  (fun v => v - 1) <$> tm.

(** [self.timers = {_: __ for _, __ in self.timers.items() if __}] *)
Definition cleanup_timers (tm : gmap string Z) : gmap string Z :=
  filter (fun kv => kv.2 ≠ 0) tm.

(** StackTimer.register_timer *)
Definition register_timer (name : string) (timeout : Z)
    (tm : gmap string Z) : gmap string Z :=
  <[name := timeout]> tm.

(** StackTimer.timer_expired: [not self.timers.get(name, None)] *)
Definition timer_expired (name : string) (tm : gmap string Z) : bool :=
  match tm !! name with
  | None => true
  | Some v => negb (truthy v)
  end.


End StackTimer.

(** ** tcp_session.py *)

Module Tcp.

Definition DELAYED_ACK_DELAY : Z := 200.
Definition TIME_WAIT_DELAY : Z := 15000.
Definition PACKET_RESEND_DELAY : Z := 1000.
Definition PACKET_RESEND_COUNT : nat := 4.
Definition USE_REMOTE_WIN : bool := true.

(** The names of the states, the keys of the dispatch table of [tcp_fsm]. *)
Inductive State : Type :=
  | CLOSED | LISTEN | SYN_SENT | SYN_RCVD | ESTABLISHED | FIN_WAIT_1
  | FIN_WAIT_2 | CLOSING | CLOSE_WAIT | LAST_ACK | TIME_WAIT.

(** The values the [syscall] argument of [tcp_fsm] takes. *)
Inductive Syscall : Type := SYS_LISTEN | SYS_CONNECT | SYS_CLOSE.

Definition state_eqb (a b : State) : bool :=
  match a, b with
  | CLOSED, CLOSED | LISTEN, LISTEN | SYN_SENT, SYN_SENT
  | SYN_RCVD, SYN_RCVD | ESTABLISHED, ESTABLISHED | FIN_WAIT_1, FIN_WAIT_1
  | FIN_WAIT_2, FIN_WAIT_2 | CLOSING, CLOSING | CLOSE_WAIT, CLOSE_WAIT
  | LAST_ACK, LAST_ACK | TIME_WAIT, TIME_WAIT => true
  | _, _ => false
  end.

Definition syscall_is (sc : option Syscall) (x : Syscall) : bool :=
  match sc, x with
  | Some SYS_LISTEN, SYS_LISTEN | Some SYS_CONNECT, SYS_CONNECT
  | Some SYS_CLOSE, SYS_CLOSE => true
  | _, _ => false
  end.

(** The packet that [phrx_tcp] hands to [tcp_fsm]: the attributes the state
    machine reads.  Its class is not part of these sources; an instance is
    taken to be true in a condition such as [packet and ...]. *)
Module Packet.
Record t : Type := mk {
  flag_syn : bool;
  flag_ack : bool;
  flag_fin : bool;
  flag_rst : bool;
  seq : Z;
  ack : Z;
  raw_data : list byte;
  mss : Z;
  win : Z;
  local_ip_address : string;
  local_port : Z;
  remote_ip_address : string;
  remote_port : Z
}.
End Packet.

(** One call of [stack.packet_handler.phtx_tcp], with its keyword arguments.
    [tcp_ack] and [tcp_mss] can be [None]. *)
Module Segment.
Record t : Type := mk {
  ip_src : string;
  ip_dst : string;
  tcp_sport : Z;
  tcp_dport : Z;
  tcp_seq : Z;
  tcp_ack : option Z;
  tcp_flag_syn : bool;
  tcp_flag_ack : bool;
  tcp_flag_fin : bool;
  tcp_flag_rst : bool;
  tcp_win : Z;
  tcp_mss : option Z;
  raw_data : list byte
}.
End Segment.

(** class TcpSession.  The logger and the three locks are left out: every
    function below runs as one atomic step.  [socket] is the identity of the
    socket object; an attribute that [__init__] sets to [None], or that only
    a state initialisation creates, is an [option]; the two resend counters
    start at 0 and are only incremented, so they are [nat]. *)
Record TcpSession : Type := mkSession {
  local_ip_address : string;
  local_port : Z;
  remote_ip_address : string;
  remote_port : Z;
  socket : option nat;
  rx_buffer : list byte;
  tx_buffer : list byte;
  remote_seq_init : option Z;
  remote_seq_rcvd : option Z;
  remote_seq_ackd : option Z;
  local_seq_init : Z;
  local_seq_sent : Z;
  local_seq_ackd : Z;
  local_seq_fin : option Z;
  tx_buffer_seq_mod : Z;
  state : State;
  state_init : bool;
  local_win : Z;
  local_mss : Z;
  remote_win : option Z;
  remote_mss : option Z;
  event_connect : nat;
  event_rx_buffer : nat;
  syn_sent_resend_count : option nat;
  syn_rcvd_resend_count : option nat
}.

Definition set_rx_buffer (v : list byte) (s : TcpSession) : TcpSession :=
  mkSession
    (local_ip_address s) (local_port s) (remote_ip_address s) (remote_port
    s) (socket s) v (tx_buffer s) (remote_seq_init s) (remote_seq_rcvd s)
    (remote_seq_ackd s) (local_seq_init s) (local_seq_sent s)
    (local_seq_ackd s) (local_seq_fin s) (tx_buffer_seq_mod s) (state s)
    (state_init s) (local_win s) (local_mss s) (remote_win s) (remote_mss
    s) (event_connect s) (event_rx_buffer s) (syn_sent_resend_count s)
    (syn_rcvd_resend_count s).

Definition set_tx_buffer (v : list byte) (s : TcpSession) : TcpSession :=
  mkSession
    (local_ip_address s) (local_port s) (remote_ip_address s) (remote_port
    s) (socket s) (rx_buffer s) v (remote_seq_init s) (remote_seq_rcvd s)
    (remote_seq_ackd s) (local_seq_init s) (local_seq_sent s)
    (local_seq_ackd s) (local_seq_fin s) (tx_buffer_seq_mod s) (state s)
    (state_init s) (local_win s) (local_mss s) (remote_win s) (remote_mss
    s) (event_connect s) (event_rx_buffer s) (syn_sent_resend_count s)
    (syn_rcvd_resend_count s).

Definition set_remote_seq_init (v : option Z) (s : TcpSession) : TcpSession :=
  mkSession
    (local_ip_address s) (local_port s) (remote_ip_address s) (remote_port
    s) (socket s) (rx_buffer s) (tx_buffer s) v (remote_seq_rcvd s)
    (remote_seq_ackd s) (local_seq_init s) (local_seq_sent s)
    (local_seq_ackd s) (local_seq_fin s) (tx_buffer_seq_mod s) (state s)
    (state_init s) (local_win s) (local_mss s) (remote_win s) (remote_mss
    s) (event_connect s) (event_rx_buffer s) (syn_sent_resend_count s)
    (syn_rcvd_resend_count s).

Definition set_remote_seq_rcvd (v : option Z) (s : TcpSession) : TcpSession :=
  mkSession
    (local_ip_address s) (local_port s) (remote_ip_address s) (remote_port
    s) (socket s) (rx_buffer s) (tx_buffer s) (remote_seq_init s) v
    (remote_seq_ackd s) (local_seq_init s) (local_seq_sent s)
    (local_seq_ackd s) (local_seq_fin s) (tx_buffer_seq_mod s) (state s)
    (state_init s) (local_win s) (local_mss s) (remote_win s) (remote_mss
    s) (event_connect s) (event_rx_buffer s) (syn_sent_resend_count s)
    (syn_rcvd_resend_count s).

Definition set_remote_seq_ackd (v : option Z) (s : TcpSession) : TcpSession :=
  mkSession
    (local_ip_address s) (local_port s) (remote_ip_address s) (remote_port
    s) (socket s) (rx_buffer s) (tx_buffer s) (remote_seq_init s)
    (remote_seq_rcvd s) v (local_seq_init s) (local_seq_sent s)
    (local_seq_ackd s) (local_seq_fin s) (tx_buffer_seq_mod s) (state s)
    (state_init s) (local_win s) (local_mss s) (remote_win s) (remote_mss
    s) (event_connect s) (event_rx_buffer s) (syn_sent_resend_count s)
    (syn_rcvd_resend_count s).

Definition set_local_seq_sent (v : Z) (s : TcpSession) : TcpSession :=
  mkSession
    (local_ip_address s) (local_port s) (remote_ip_address s) (remote_port
    s) (socket s) (rx_buffer s) (tx_buffer s) (remote_seq_init s)
    (remote_seq_rcvd s) (remote_seq_ackd s) (local_seq_init s) v
    (local_seq_ackd s) (local_seq_fin s) (tx_buffer_seq_mod s) (state s)
    (state_init s) (local_win s) (local_mss s) (remote_win s) (remote_mss
    s) (event_connect s) (event_rx_buffer s) (syn_sent_resend_count s)
    (syn_rcvd_resend_count s).

Definition set_local_seq_ackd (v : Z) (s : TcpSession) : TcpSession :=
  mkSession
    (local_ip_address s) (local_port s) (remote_ip_address s) (remote_port
    s) (socket s) (rx_buffer s) (tx_buffer s) (remote_seq_init s)
    (remote_seq_rcvd s) (remote_seq_ackd s) (local_seq_init s)
    (local_seq_sent s) v (local_seq_fin s) (tx_buffer_seq_mod s) (state s)
    (state_init s) (local_win s) (local_mss s) (remote_win s) (remote_mss
    s) (event_connect s) (event_rx_buffer s) (syn_sent_resend_count s)
    (syn_rcvd_resend_count s).

Definition set_local_seq_fin (v : option Z) (s : TcpSession) : TcpSession :=
  mkSession
    (local_ip_address s) (local_port s) (remote_ip_address s) (remote_port
    s) (socket s) (rx_buffer s) (tx_buffer s) (remote_seq_init s)
    (remote_seq_rcvd s) (remote_seq_ackd s) (local_seq_init s)
    (local_seq_sent s) (local_seq_ackd s) v (tx_buffer_seq_mod s) (state
    s) (state_init s) (local_win s) (local_mss s) (remote_win s)
    (remote_mss s) (event_connect s) (event_rx_buffer s)
    (syn_sent_resend_count s) (syn_rcvd_resend_count s).

Definition set_tx_buffer_seq_mod (v : Z) (s : TcpSession) : TcpSession :=
  mkSession
    (local_ip_address s) (local_port s) (remote_ip_address s) (remote_port
    s) (socket s) (rx_buffer s) (tx_buffer s) (remote_seq_init s)
    (remote_seq_rcvd s) (remote_seq_ackd s) (local_seq_init s)
    (local_seq_sent s) (local_seq_ackd s) (local_seq_fin s) v (state s)
    (state_init s) (local_win s) (local_mss s) (remote_win s) (remote_mss
    s) (event_connect s) (event_rx_buffer s) (syn_sent_resend_count s)
    (syn_rcvd_resend_count s).

Definition set_state (v : State) (s : TcpSession) : TcpSession :=
  mkSession
    (local_ip_address s) (local_port s) (remote_ip_address s) (remote_port
    s) (socket s) (rx_buffer s) (tx_buffer s) (remote_seq_init s)
    (remote_seq_rcvd s) (remote_seq_ackd s) (local_seq_init s)
    (local_seq_sent s) (local_seq_ackd s) (local_seq_fin s)
    (tx_buffer_seq_mod s) v (state_init s) (local_win s) (local_mss s)
    (remote_win s) (remote_mss s) (event_connect s) (event_rx_buffer s)
    (syn_sent_resend_count s) (syn_rcvd_resend_count s).

Definition set_state_init (v : bool) (s : TcpSession) : TcpSession :=
  mkSession
    (local_ip_address s) (local_port s) (remote_ip_address s) (remote_port
    s) (socket s) (rx_buffer s) (tx_buffer s) (remote_seq_init s)
    (remote_seq_rcvd s) (remote_seq_ackd s) (local_seq_init s)
    (local_seq_sent s) (local_seq_ackd s) (local_seq_fin s)
    (tx_buffer_seq_mod s) (state s) v (local_win s) (local_mss s)
    (remote_win s) (remote_mss s) (event_connect s) (event_rx_buffer s)
    (syn_sent_resend_count s) (syn_rcvd_resend_count s).

Definition set_remote_win (v : option Z) (s : TcpSession) : TcpSession :=
  mkSession
    (local_ip_address s) (local_port s) (remote_ip_address s) (remote_port
    s) (socket s) (rx_buffer s) (tx_buffer s) (remote_seq_init s)
    (remote_seq_rcvd s) (remote_seq_ackd s) (local_seq_init s)
    (local_seq_sent s) (local_seq_ackd s) (local_seq_fin s)
    (tx_buffer_seq_mod s) (state s) (state_init s) (local_win s)
    (local_mss s) v (remote_mss s) (event_connect s) (event_rx_buffer s)
    (syn_sent_resend_count s) (syn_rcvd_resend_count s).

Definition set_remote_mss (v : option Z) (s : TcpSession) : TcpSession :=
  mkSession
    (local_ip_address s) (local_port s) (remote_ip_address s) (remote_port
    s) (socket s) (rx_buffer s) (tx_buffer s) (remote_seq_init s)
    (remote_seq_rcvd s) (remote_seq_ackd s) (local_seq_init s)
    (local_seq_sent s) (local_seq_ackd s) (local_seq_fin s)
    (tx_buffer_seq_mod s) (state s) (state_init s) (local_win s)
    (local_mss s) (remote_win s) v (event_connect s) (event_rx_buffer s)
    (syn_sent_resend_count s) (syn_rcvd_resend_count s).

Definition set_event_connect (v : nat) (s : TcpSession) : TcpSession :=
  mkSession
    (local_ip_address s) (local_port s) (remote_ip_address s) (remote_port
    s) (socket s) (rx_buffer s) (tx_buffer s) (remote_seq_init s)
    (remote_seq_rcvd s) (remote_seq_ackd s) (local_seq_init s)
    (local_seq_sent s) (local_seq_ackd s) (local_seq_fin s)
    (tx_buffer_seq_mod s) (state s) (state_init s) (local_win s)
    (local_mss s) (remote_win s) (remote_mss s) v (event_rx_buffer s)
    (syn_sent_resend_count s) (syn_rcvd_resend_count s).

Definition set_event_rx_buffer (v : nat) (s : TcpSession) : TcpSession :=
  mkSession
    (local_ip_address s) (local_port s) (remote_ip_address s) (remote_port
    s) (socket s) (rx_buffer s) (tx_buffer s) (remote_seq_init s)
    (remote_seq_rcvd s) (remote_seq_ackd s) (local_seq_init s)
    (local_seq_sent s) (local_seq_ackd s) (local_seq_fin s)
    (tx_buffer_seq_mod s) (state s) (state_init s) (local_win s)
    (local_mss s) (remote_win s) (remote_mss s) (event_connect s) v
    (syn_sent_resend_count s) (syn_rcvd_resend_count s).

Definition set_syn_sent_resend_count (v : option nat) (s : TcpSession) : TcpSession :=
  mkSession
    (local_ip_address s) (local_port s) (remote_ip_address s) (remote_port
    s) (socket s) (rx_buffer s) (tx_buffer s) (remote_seq_init s)
    (remote_seq_rcvd s) (remote_seq_ackd s) (local_seq_init s)
    (local_seq_sent s) (local_seq_ackd s) (local_seq_fin s)
    (tx_buffer_seq_mod s) (state s) (state_init s) (local_win s)
    (local_mss s) (remote_win s) (remote_mss s) (event_connect s)
    (event_rx_buffer s) v (syn_rcvd_resend_count s).

Definition set_syn_rcvd_resend_count (v : option nat) (s : TcpSession) : TcpSession :=
  mkSession
    (local_ip_address s) (local_port s) (remote_ip_address s) (remote_port
    s) (socket s) (rx_buffer s) (tx_buffer s) (remote_seq_init s)
    (remote_seq_rcvd s) (remote_seq_ackd s) (local_seq_init s)
    (local_seq_sent s) (local_seq_ackd s) (local_seq_fin s)
    (tx_buffer_seq_mod s) (state s) (state_init s) (local_win s)
    (local_mss s) (remote_win s) (remote_mss s) (event_connect s)
    (event_rx_buffer s) (syn_sent_resend_count s) v.

(** What an entry of [stack.tcp_sessions] refers to: the session under
    consideration, a session that its LISTEN handler constructed (by position
    in [created]), or some other session. *)
Inductive SessionRef : Type :=
  | ThisSession
  | CreatedSession (n : nat)
  | OtherSession (n : nat).

(** The module [stack] as one session sees it: the configuration, the named
    timers of [stack.stack_timer], the session table, the calls of
    [packet_handler.phtx_tcp] (oldest first), the semaphore
    [event_tcp_session_established] of every socket, the sessions constructed
    by this session (each with its timer task registered), and the values
    [random.randint] returns. *)
Record Stack : Type := mkStack {
  mtu : Z;
  local_tcp_win : Z;
  local_tcp_mss : Z;
  timers : gmap string Z;
  tcp_sessions : gmap string SessionRef;
  phtx_tcp : list Segment.t;
  event_tcp_session_established : gmap nat nat;
  created : list TcpSession;
  randint : nat -> Z;
  randint_calls : nat
}.

Definition set_timers (v : gmap string Z) (k : Stack) : Stack :=
  mkStack (mtu k) (local_tcp_win k) (local_tcp_mss k) v (tcp_sessions k)
    (phtx_tcp k) (event_tcp_session_established k) (created k) (randint k)
    (randint_calls k).

Definition set_tcp_sessions (v : gmap string SessionRef) (k : Stack)
    : Stack :=
  mkStack (mtu k) (local_tcp_win k) (local_tcp_mss k) (timers k) v
    (phtx_tcp k) (event_tcp_session_established k) (created k) (randint k)
    (randint_calls k).

Definition set_phtx_tcp (v : list Segment.t) (k : Stack) : Stack :=
  mkStack (mtu k) (local_tcp_win k) (local_tcp_mss k) (timers k)
    (tcp_sessions k) v (event_tcp_session_established k) (created k)
    (randint k) (randint_calls k).

Definition set_event_tcp_session_established (v : gmap nat nat) (k : Stack)
    : Stack :=
  mkStack (mtu k) (local_tcp_win k) (local_tcp_mss k) (timers k)
    (tcp_sessions k) (phtx_tcp k) v (created k) (randint k)
    (randint_calls k).

Definition set_created (v : list TcpSession) (k : Stack) : Stack :=
  mkStack (mtu k) (local_tcp_win k) (local_tcp_mss k) (timers k)
    (tcp_sessions k) (phtx_tcp k) (event_tcp_session_established k) v
    (randint k) (randint_calls k).

Definition set_randint_calls (v : nat) (k : Stack) : Stack :=
  mkStack (mtu k) (local_tcp_win k) (local_tcp_mss k) (timers k)
    (tcp_sessions k) (phtx_tcp k) (event_tcp_session_established k)
    (created k) (randint k) v.

(** What a function of the session returns: the exception it raised (if
    any) and the session and the stack as it left them. *)
Definition Result : Type := option exn * TcpSession * Stack.

Definition returned (s : TcpSession) (k : Stack) : Result := (None, s, k).
Definition raised (e : exn) (s : TcpSession) (k : Stack) : Result :=
  (Some e, s, k).

(** [stack.stack_timer.register_timer] and [timer_expired] on the stack. *)
Definition register_timer (name : string) (timeout : Z) (k : Stack)
    : Stack :=
  set_timers (StackTimer.register_timer name timeout (timers k)) k.

Definition timer_expired (name : string) (k : Stack) : bool :=
  StackTimer.timer_expired name (timers k).

(** TcpSession.__init__, up to the registration of the timer task (see
    [fsm_task]); [__change_state("CLOSED")] leaves [state_init] set. *)
Definition new_session (k : Stack) (lip : string) (lport : Z) (rip : string)
    (rport : Z) (sock : option nat) : TcpSession * Stack :=
  let isn := randint k (randint_calls k) in
  ({| local_ip_address := lip; local_port := lport;
      remote_ip_address := rip; remote_port := rport;
      socket := sock;
      rx_buffer := []; tx_buffer := [];
      remote_seq_init := None; remote_seq_rcvd := None;
      remote_seq_ackd := None;
      local_seq_init := isn; local_seq_sent := isn; local_seq_ackd := isn;
      local_seq_fin := None;
      tx_buffer_seq_mod := isn + 1;
      state := CLOSED; state_init := true;
      local_win := local_tcp_win k; local_mss := local_tcp_mss k;
      remote_win := None; remote_mss := None;
      event_connect := 0%nat; event_rx_buffer := 0%nat;
      syn_sent_resend_count := None; syn_rcvd_resend_count := None |},
   set_randint_calls (S (randint_calls k)) k).

(** The property [tcp_session_id] *)
Definition tcp_session_id (s : TcpSession) : string :=
  "TCP/" +:+ local_ip_address s +:+ "/" +:+ pretty (local_port s) +:+ "/"
    +:+ remote_ip_address s +:+ "/" +:+ pretty (remote_port s).

(** The property [tx_buffer_seq_sent] *)
Definition tx_buffer_seq_sent (s : TcpSession) : Z :=
  local_seq_sent s - tx_buffer_seq_mod s.

(** The property [tx_buffer_seq_ackd] *)
Definition tx_buffer_seq_ackd (s : TcpSession) : Z :=
  local_seq_ackd s - tx_buffer_seq_mod s.

(** TcpSession.__change_state *)
Definition change_state (st : State) (s : TcpSession) : TcpSession :=
  set_state_init true (set_state st s).

(** [seq if seq else self.local_seq_sent], which takes [local_seq_sent]
    when [seq] is [None] and also when it is 0. *)
Definition effective_seq (s : TcpSession) (seq : option Z) : Z :=
  match seq with
  | Some q => if truthy q then q else local_seq_sent s
  | None => local_seq_sent s
  end.

(** TcpSession.__send_packet *)
Definition send_packet (s : TcpSession) (k : Stack) (seq : option Z)
    (flag_syn flag_ack flag_fin flag_rst : bool) (raw_data : list byte)
    : TcpSession * Stack :=
  let tcp_seq := effective_seq s seq in
  let segment :=
    {| Segment.ip_src := local_ip_address s;
       Segment.ip_dst := remote_ip_address s;
       Segment.tcp_sport := local_port s;
       Segment.tcp_dport := remote_port s;
       Segment.tcp_seq := tcp_seq;
       Segment.tcp_ack := if flag_ack then remote_seq_rcvd s else Some 0;
       Segment.tcp_flag_syn := flag_syn;
       Segment.tcp_flag_ack := flag_ack;
       Segment.tcp_flag_fin := flag_fin;
       Segment.tcp_flag_rst := flag_rst;
       Segment.tcp_win := local_win s;
       Segment.tcp_mss := if flag_syn then Some (local_mss s) else None;
       Segment.raw_data := raw_data |} in
  let k1 := set_phtx_tcp (phtx_tcp k ++ [segment]) k in
  let s1 := set_remote_seq_ackd (remote_seq_rcvd s) s in
  let s2 :=
    set_local_seq_sent
      (tcp_seq + len raw_data + Z.b2z flag_syn + Z.b2z flag_fin) s1 in
  let s3 :=
    if flag_fin then set_local_seq_fin (Some (local_seq_sent s2)) s2
    else s2 in
  let k2 :=
    if state_eqb (state s3) ESTABLISHED
    then register_timer (tcp_session_id s3 +:+ "delayed_ack")
           DELAYED_ACK_DELAY k1
    else k1 in
  (s3, k2).

(** TcpSession.__enqueue_rx_buffer *)
Definition enqueue_rx_buffer (raw_data : list byte) (s : TcpSession)
    : TcpSession :=
  let s1 := set_rx_buffer (rx_buffer s ++ raw_data) s in
  if Nat.eqb (event_rx_buffer s1) 0
  then set_event_rx_buffer (S (event_rx_buffer s1)) s1
  else s1.

(** TcpSession.__send_data.  [remote_win] and [remote_mss] are [None] until
    a handshake sets them; arithmetic on [None] raises [TypeError]. *)
Definition send_data (s : TcpSession) (k : Stack) : Result :=
  if truthy (len (tx_buffer s) - tx_buffer_seq_sent s) then
    match remote_win s with
    | None => raised TypeError s k
    | Some rwin =>
        let win_left :=
          tx_buffer_seq_ackd s + rwin - tx_buffer_seq_sent s in
        if win_left >? 0 then
          match remote_mss s with
          | None => raised TypeError s k
          | Some rmss =>
              let data :=
                slice (tx_buffer s) (tx_buffer_seq_sent s)
                  (tx_buffer_seq_sent s + Z.min rmss win_left) in
              let '(s1, k1) :=
                send_packet s k None false true false false data in
              returned s1 k1
          end
        else returned s k
    end
  else returned s k.

(** TcpSession.__delayed_ack.  [remote_seq_rcvd > remote_seq_ackd] raises
    [TypeError] while either is [None]. *)
Definition delayed_ack (s : TcpSession) (k : Stack) : Result :=
  if timer_expired (tcp_session_id s +:+ "delayed_ack") k then
    match remote_seq_rcvd s, remote_seq_ackd s with
    | Some rcvd, Some ackd =>
        let '(s1, k1) :=
          if rcvd >? ackd
          then send_packet s k None false true false false []
          else (s, k) in
        returned s1
          (register_timer (tcp_session_id s1 +:+ "delayed_ack")
             DELAYED_ACK_DELAY k1)
    | _, _ => raised TypeError s k
    end
  else returned s k.

(** TcpSession.__process_ack_packet *)
Definition process_ack_packet (s : TcpSession) (k : Stack) (packet : Packet.t)
    (send_ack : bool) : TcpSession * Stack :=
  let s1 := set_local_seq_ackd (Z.max (local_seq_ackd s) (Packet.ack packet)) s in
  let s2 :=
    set_remote_seq_rcvd
      (Some (Packet.seq packet + len (Packet.raw_data packet)
             + Z.b2z (Packet.flag_syn packet)
             + Z.b2z (Packet.flag_fin packet))) s1 in
  let has_data := negb (Nat.eqb (length (Packet.raw_data packet)) 0) in
  let s3 :=
    if has_data then enqueue_rx_buffer (Packet.raw_data packet) s2 else s2 in
  let '(s4, k4) :=
    if send_ack && has_data
    then send_packet s3 k None false true false false []
    else (s3, k) in
  let s5 :=
    set_tx_buffer (slice_from (tx_buffer s4) (tx_buffer_seq_ackd s4)) s4 in
  let s6 :=
    set_tx_buffer_seq_mod (tx_buffer_seq_mod s5 + tx_buffer_seq_ackd s5) s5 in
  (s6, k4).

(** [packet and cond(packet)]: the packet when there is one and the condition
    holds of it. *)
Definition when_packet (packet : option Packet.t) (cond : Packet.t -> bool)
    : option Packet.t :=
  match packet with
  | Some p => if cond p then Some p else None
  | None => None
  end.

(** [not packet.raw_data] *)
Definition no_data (p : Packet.t) : bool :=
  Nat.eqb (length (Packet.raw_data p)) 0.

(** [packet.seq == self.remote_seq_rcvd], which is false while the
    attribute is [None]. *)
Definition seq_expected (s : TcpSession) (p : Packet.t) : bool :=
  match remote_seq_rcvd s with
  | Some r => Packet.seq p =? r
  | None => false
  end.

(** [if self.state_init: self.state_init = False] *)
Definition clear_state_init (s : TcpSession) : TcpSession :=
  if state_init s then set_state_init false s else s.

(** The four assignments that move a listening session to the addresses of
    the incoming connection. *)
Definition set_addresses (lip : string) (lport : Z) (rip : string)
    (rport : Z) (s : TcpSession) : TcpSession :=
  mkSession lip lport rip rport (socket s) (rx_buffer s) (tx_buffer s)
    (remote_seq_init s) (remote_seq_rcvd s) (remote_seq_ackd s)
    (local_seq_init s) (local_seq_sent s) (local_seq_ackd s)
    (local_seq_fin s) (tx_buffer_seq_mod s) (state s) (state_init s)
    (local_win s) (local_mss s) (remote_win s) (remote_mss s)
    (event_connect s) (event_rx_buffer s) (syn_sent_resend_count s)
    (syn_rcvd_resend_count s).

(** [semaphore.release()] *)
Definition release_connect (s : TcpSession) : TcpSession :=
  set_event_connect (S (event_connect s)) s.

Definition release_rx_buffer (s : TcpSession) : TcpSession :=
  set_event_rx_buffer (S (event_rx_buffer s)) s.

Definition release_established (sock : nat) (k : Stack) : Stack :=
  set_event_tcp_session_established
    (<[sock := S (default 0%nat (event_tcp_session_established k !! sock))]>
       (event_tcp_session_established k)) k.

(** The parameters a SYN or SYN+ACK packet initialises. *)
Definition init_remote (p : Packet.t) (k : Stack) (s : TcpSession)
    : TcpSession :=
  let s1 := set_remote_mss (Some (Z.min (Packet.mss p) (mtu k - 80))) s in
  let s2 :=
    set_remote_win
      (if USE_REMOTE_WIN then Some (Packet.win p) else remote_mss s1) s1 in
  set_remote_seq_init (Some (Packet.seq p)) s2.

(** TcpSession.__tcp_fsm_closed *)
Definition tcp_fsm_closed (s : TcpSession) (k : Stack)
    (packet : option Packet.t) (syscall : option Syscall) (timer : bool)
    : Result :=
  let s0 := clear_state_init s in
  let '(s1, k1) :=
    if syscall_is syscall SYS_CONNECT then
      let '(s', k') := send_packet s0 k None true false false false [] in
      (change_state SYN_SENT s', k')
    else (s0, k) in
  let s2 :=
    if syscall_is syscall SYS_LISTEN then change_state LISTEN s1 else s1 in
  returned s2 k1.

(** TcpSession.__tcp_fsm_listen *)
Definition tcp_fsm_listen (s : TcpSession) (k : Stack)
    (packet : option Packet.t) (syscall : option Syscall) (timer : bool)
    : Result :=
  let s0 := clear_state_init s in
  match
    when_packet packet (fun p =>
      py_all [Packet.flag_syn p]
      && negb (py_any [Packet.flag_ack p; Packet.flag_fin p;
                       Packet.flag_rst p])
      && (Packet.ack p =? 0) && no_data p)
  with
  | Some p =>
      (* tcp_session = TcpSession(...); tcp_session.listen() *)
      let '(fresh, k1) :=
        new_session k (local_ip_address s0) (local_port s0)
          (remote_ip_address s0) (remote_port s0) (socket s0) in
      let '(_, listening, k2) :=
        tcp_fsm_closed fresh k1 None (Some SYS_LISTEN) false in
      let k3 := set_created (created k2 ++ [listening]) k2 in
      (* stack.tcp_sessions.pop(self.tcp_session_id) *)
      match tcp_sessions k3 !! tcp_session_id s0 with
      | None => raised KeyError s0 k3
      | Some _ =>
          let k4 :=
            set_tcp_sessions (delete (tcp_session_id s0) (tcp_sessions k3))
              k3 in
          let s1 :=
            set_addresses (Packet.local_ip_address p) (Packet.local_port p)
              (Packet.remote_ip_address p) (Packet.remote_port p) s0 in
          let k5 :=
            set_tcp_sessions
              (<[tcp_session_id s1 := ThisSession]> (tcp_sessions k4)) k4 in
          let k6 :=
            set_tcp_sessions
              (<[tcp_session_id listening :=
                   CreatedSession (length (created k2))]>
                 (tcp_sessions k5)) k5 in
          let s2 := init_remote p k6 s1 in
          let s3 :=
            set_remote_seq_rcvd
              (Some (Packet.seq p + Z.b2z (Packet.flag_syn p))) s2 in
          let '(s4, k7) := send_packet s3 k6 None true true false false [] in
          returned (change_state SYN_RCVD s4) k7
      end
  | None =>
      if syscall_is syscall SYS_CLOSE
      then returned (change_state CLOSED s0) k
      else returned s0 k
  end.

(** TcpSession.__tcp_fsm_syn_sent *)
Definition tcp_fsm_syn_sent (s : TcpSession) (k : Stack)
    (packet : option Packet.t) (syscall : option Syscall) (timer : bool)
    : Result :=
  let '(s0, k0) :=
    if state_init s then
      (set_syn_sent_resend_count (Some 0%nat) (set_state_init false s),
       register_timer (tcp_session_id s +:+ "syn_sent") PACKET_RESEND_DELAY k)
    else (s, k) in
  if timer && timer_expired (tcp_session_id s0 +:+ "syn_sent") k0
     && (local_seq_ackd s0 <? local_seq_sent s0)
  then
    match syn_sent_resend_count s0 with
    | None => raised (AttributeError "syn_sent_resend_count") s0 k0
    | Some count =>
        if Nat.eqb count PACKET_RESEND_COUNT
        then returned (change_state CLOSED s0) k0
        else
          let '(s1, k1) :=
            send_packet s0 k0 (Some (local_seq_ackd s0))
              true false false false [] in
          let s2 := set_syn_sent_resend_count (Some (S count)) s1 in
          returned s2
            (register_timer (tcp_session_id s2 +:+ "syn_sent")
               (PACKET_RESEND_DELAY * Z.shiftl 1 (Z.of_nat (S count))) k1)
    end
  else
  match
    when_packet packet (fun p =>
      py_all [Packet.flag_syn p; Packet.flag_ack p]
      && negb (py_any [Packet.flag_fin p; Packet.flag_rst p])
      && (Packet.ack p =? local_seq_sent s0) && no_data p)
  with
  | Some p =>
      let '(s1, k1) := process_ack_packet s0 k0 p false in
      let s2 := init_remote p k1 s1 in
      let '(s3, k3) := send_packet s2 k1 None false true false false [] in
      returned (change_state ESTABLISHED s3) k3
  | None =>
  match
    when_packet packet (fun p =>
      py_all [Packet.flag_syn p]
      && negb (py_any [Packet.flag_ack p; Packet.flag_fin p;
                       Packet.flag_syn p])
      && (Packet.ack p =? 0) && no_data p)
  with
  | Some p =>
      let '(s1, k1) := send_packet s0 k0 None true true false false [] in
      returned (change_state SYN_RCVD s1) k1
  | None =>
  match
    when_packet packet (fun p =>
      py_all [Packet.flag_rst p]
      && negb (py_any [Packet.flag_fin p; Packet.flag_syn p]))
  with
  | Some p => returned (release_connect (change_state CLOSED s0)) k0
  | None =>
      if syscall_is syscall SYS_CLOSE
      then returned (change_state CLOSED s0) k0
      else returned s0 k0
  end end end.

(** TcpSession.__tcp_fsm_syn_rcvd *)
Definition tcp_fsm_syn_rcvd (s : TcpSession) (k : Stack)
    (packet : option Packet.t) (syscall : option Syscall) (timer : bool)
    : Result :=
  let '(s0, k0) :=
    if state_init s then
      (set_syn_rcvd_resend_count (Some 0%nat) (set_state_init false s),
       register_timer (tcp_session_id s +:+ "syn_rcvd") PACKET_RESEND_DELAY k)
    else (s, k) in
  if timer && timer_expired (tcp_session_id s0 +:+ "syn_rcvd") k0
     && (local_seq_ackd s0 <? local_seq_sent s0)
  then
    match syn_rcvd_resend_count s0 with
    | None => raised (AttributeError "syn_rcvd_resend_count") s0 k0
    | Some count =>
        if Nat.eqb count PACKET_RESEND_COUNT
        then returned (change_state CLOSED s0) k0
        else
          let '(s1, k1) :=
            send_packet s0 k0 (Some (local_seq_ackd s0))
              true true false false [] in
          let s2 := set_syn_rcvd_resend_count (Some (S count)) s1 in
          returned s2
            (register_timer (tcp_session_id s2 +:+ "syn_rcvd")
               (PACKET_RESEND_DELAY * Z.shiftl 1 (Z.of_nat (S count))) k1)
    end
  else
  match
    when_packet packet (fun p =>
      py_all [Packet.flag_ack p]
      && negb (py_any [Packet.flag_syn p; Packet.flag_fin p;
                       Packet.flag_rst p])
      && seq_expected s0 p && (Packet.ack p =? local_seq_sent s0)
      && no_data p)
  with
  | Some p =>
      let '(s1, k1) := process_ack_packet s0 k0 p false in
      returned (change_state ESTABLISHED s1) k1
  | None =>
      if syscall_is syscall SYS_CLOSE then
        let '(s1, k1) := send_packet s0 k0 None false true true false [] in
        returned (change_state FIN_WAIT_1 s1) k1
      else returned s0 k0
  end.

(** [self.__send_data(); self.__delayed_ack()] of a timer event. *)
Definition on_timer (s : TcpSession) (k : Stack) : Result :=
  match send_data s k with
  | (Some e, s1, k1) => (Some e, s1, k1)
  | (None, s1, k1) => delayed_ack s1 k1
  end.

(** The flag patterns the handlers test. *)
Definition is_ack (p : Packet.t) : bool :=
  py_all [Packet.flag_ack p]
  && negb (py_any [Packet.flag_syn p; Packet.flag_rst p; Packet.flag_fin p]).

Definition is_fin_ack (p : Packet.t) : bool :=
  py_all [Packet.flag_fin p; Packet.flag_ack p]
  && negb (py_any [Packet.flag_syn p; Packet.flag_rst p]).

Definition is_rst (p : Packet.t) : bool :=
  py_all [Packet.flag_rst p]
  && negb (py_any [Packet.flag_syn p; Packet.flag_fin p; Packet.flag_ack p]).

(** [packet.seq == self.remote_seq_rcvd and
     packet.ack <= self.local_seq_sent] *)
Definition sane (s : TcpSession) (p : Packet.t) : bool :=
  seq_expected s p && (Packet.ack p <=? local_seq_sent s).

(** TcpSession.__tcp_fsm_established *)
Definition tcp_fsm_established (s : TcpSession) (k : Stack)
    (packet : option Packet.t) (syscall : option Syscall) (timer : bool)
    : Result :=
  let init : Result :=
    if state_init s then
      let s' := set_state_init false s in
      match socket s' with
      | None => raised (AttributeError "event_tcp_session_established") s' k
      | Some sock => returned (release_connect s') (release_established sock k)
      end
    else returned s k in
  match init with
  | (Some e, s0, k0) => (Some e, s0, k0)
  | (None, s0, k0) =>
  if timer then on_timer s0 k0
  else
  match when_packet packet (fun p => is_ack p && sane s0 p) with
  | Some p =>
      let '(s1, k1) := process_ack_packet s0 k0 p false in
      returned s1 k1
  | None =>
  match when_packet packet (fun p => is_fin_ack p && sane s0 p) with
  | Some p =>
      let '(s1, k1) := process_ack_packet s0 k0 p true in
      returned (change_state CLOSE_WAIT (release_rx_buffer s1)) k1
  | None =>
      if syscall_is syscall SYS_CLOSE then
        let '(s1, k1) := send_packet s0 k0 None false true true false [] in
        returned (change_state FIN_WAIT_1 s1) k1
      else returned s0 k0
  end end end.

(** TcpSession.__tcp_fsm_fin_wait_1.  [packet.ack >= self.local_seq_fin]
    raises [TypeError] while [local_seq_fin] is [None]. *)
Definition tcp_fsm_fin_wait_1 (s : TcpSession) (k : Stack)
    (packet : option Packet.t) (syscall : option Syscall) (timer : bool)
    : Result :=
  let s0 := clear_state_init s in
  match when_packet packet is_ack with
  | Some p =>
      if sane s0 p then
        let '(s1, k1) := process_ack_packet s0 k p true in
        match local_seq_fin s1 with
        | None => raised TypeError s1 k1
        | Some fin =>
            if Packet.ack p >=? fin
            then returned (change_state FIN_WAIT_2 s1) k1
            else returned s1 k1
        end
      else returned s0 k
  | None =>
  match when_packet packet is_fin_ack with
  | Some p =>
      if sane s0 p then
        let '(s1, k1) := process_ack_packet s0 k p false in
        let '(s2, k2) := send_packet s1 k1 None false true false false [] in
        match local_seq_fin s2 with
        | None => raised TypeError s2 k2
        | Some fin =>
            if Packet.ack p >=? fin
            then returned (change_state TIME_WAIT s2) k2
            else returned (change_state CLOSING s2) k2
        end
      else returned s0 k
  | None => returned s0 k
  end end.

(** TcpSession.__tcp_fsm_fin_wait_2 *)
Definition tcp_fsm_fin_wait_2 (s : TcpSession) (k : Stack)
    (packet : option Packet.t) (syscall : option Syscall) (timer : bool)
    : Result :=
  let s0 := clear_state_init s in
  match when_packet packet (fun p => is_ack p && sane s0 p) with
  | Some p =>
      let '(s1, k1) := process_ack_packet s0 k p true in
      returned s1 k1
  | None =>
  match when_packet packet (fun p => is_fin_ack p && sane s0 p) with
  | Some p =>
      let '(s1, k1) := process_ack_packet s0 k p false in
      let '(s2, k2) := send_packet s1 k1 None false true false false [] in
      returned (change_state TIME_WAIT s2) k2
  | None => returned s0 k
  end end.

(** TcpSession.__tcp_fsm_closing *)
Definition tcp_fsm_closing (s : TcpSession) (k : Stack)
    (packet : option Packet.t) (syscall : option Syscall) (timer : bool)
    : Result :=
  let s0 := clear_state_init s in
  match
    when_packet packet (fun p =>
      py_all [Packet.flag_ack p]
      && negb (py_any [Packet.flag_fin p; Packet.flag_syn p;
                       Packet.flag_rst p])
      && (Packet.ack p =? local_seq_sent s0)
      && (Packet.ack p <=? local_seq_sent s0))
  with
  | Some p =>
      returned (change_state TIME_WAIT (set_local_seq_ackd (Packet.ack p) s0))
        k
  | None => returned s0 k
  end.

(** TcpSession.__tcp_fsm_close_wait *)
Definition tcp_fsm_close_wait (s : TcpSession) (k : Stack)
    (packet : option Packet.t) (syscall : option Syscall) (timer : bool)
    : Result :=
  let s0 := clear_state_init s in
  if timer then on_timer s0 k
  else
  match
    when_packet packet (fun p => is_ack p && sane s0 p && no_data p)
  with
  | Some p =>
      let '(s1, k1) := process_ack_packet s0 k p false in
      returned s1 k1
  | None =>
      if syscall_is syscall SYS_CLOSE then
        let '(s1, k1) := send_packet s0 k None false true true false [] in
        returned (change_state LAST_ACK s1) k1
      else
        match when_packet packet is_rst with
        | Some p =>
            if (Packet.ack p =? 0) && seq_expected s0 p
            then returned (change_state CLOSED s0) k
            else returned s0 k
        | None => returned s0 k
        end
  end.

(** TcpSession.__tcp_fsm_last_ack *)
Definition tcp_fsm_last_ack (s : TcpSession) (k : Stack)
    (packet : option Packet.t) (syscall : option Syscall) (timer : bool)
    : Result :=
  let s0 := clear_state_init s in
  match
    when_packet packet (fun p =>
      py_all [Packet.flag_ack p]
      && negb (py_any [Packet.flag_syn p; Packet.flag_fin p;
                       Packet.flag_rst p]))
  with
  | Some p =>
      if (Packet.ack p =? local_seq_sent s0)
         && (Packet.ack p <=? local_seq_sent s0)
      then returned (change_state CLOSED s0) k
      else returned s0 k
  | None =>
      match when_packet packet is_rst with
      | Some p =>
          if (Packet.ack p =? 0) && seq_expected s0 p
          then returned (change_state CLOSED s0) k
          else returned s0 k
      | None => returned s0 k
      end
  end.

(** TcpSession.__tcp_fsm_time_wait *)
Definition tcp_fsm_time_wait (s : TcpSession) (k : Stack)
    (packet : option Packet.t) (syscall : option Syscall) (timer : bool)
    : Result :=
  let '(s0, k0) :=
    if state_init s then
      (set_state_init false s,
       register_timer (tcp_session_id s +:+ "time_wait") TIME_WAIT_DELAY k)
    else (s, k) in
  if timer && timer_expired (tcp_session_id s0 +:+ "time_wait") k0
  then returned (change_state CLOSED s0) k0
  else returned s0 k0.

(** TcpSession.tcp_fsm *)
Definition tcp_fsm (s : TcpSession) (k : Stack) (packet : option Packet.t)
    (syscall : option Syscall) (timer : bool) : Result :=
  match state s with
  | CLOSED => tcp_fsm_closed s k packet syscall timer
  | LISTEN => tcp_fsm_listen s k packet syscall timer
  | SYN_SENT => tcp_fsm_syn_sent s k packet syscall timer
  | SYN_RCVD => tcp_fsm_syn_rcvd s k packet syscall timer
  | ESTABLISHED => tcp_fsm_established s k packet syscall timer
  | FIN_WAIT_1 => tcp_fsm_fin_wait_1 s k packet syscall timer
  | FIN_WAIT_2 => tcp_fsm_fin_wait_2 s k packet syscall timer
  | CLOSING => tcp_fsm_closing s k packet syscall timer
  | CLOSE_WAIT => tcp_fsm_close_wait s k packet syscall timer
  | LAST_ACK => tcp_fsm_last_ack s k packet syscall timer
  | TIME_WAIT => tcp_fsm_time_wait s k packet syscall timer
  end.

(** *** The system calls *)

(** TcpSession.listen *)
Definition listen (s : TcpSession) (k : Stack) : Result :=
  tcp_fsm s k None (Some SYS_LISTEN) false.

(** TcpSession.connect, in its two halves: the call of [tcp_fsm], and
    [self.event_connect.acquire()] followed by the [return].  The second
    half is [None] for as long as the semaphore is 0, that is, while the
    caller stays blocked. *)
Definition connect_syscall (s : TcpSession) (k : Stack) : Result :=
  tcp_fsm s k None (Some SYS_CONNECT) false.

Definition connect_return (s : TcpSession) : option (bool * TcpSession) :=
  match event_connect s with
  | O => None
  | S n => Some (state_eqb (state s) ESTABLISHED, set_event_connect n s)
  end.

(** TcpSession.send.  The value is [None] when the function falls off its
    end without a [return]. *)
Definition send (raw_data : list byte) (s : TcpSession)
    : option Z * TcpSession :=
  if state_eqb (state s) ESTABLISHED || state_eqb (state s) CLOSE_WAIT
  then (Some (len raw_data), set_tx_buffer (tx_buffer s ++ raw_data) s)
  else (None, s).

(** TcpSession.receive.  The outer [None] is a caller blocked in
    [self.event_rx_buffer.acquire()]; the inner one is the value [None]. *)
Definition receive (byte_count : option Z) (s : TcpSession)
    : option (option (list byte) * TcpSession) :=
  match event_rx_buffer s with
  | O => None
  | S n =>
      let s1 := set_event_rx_buffer n s in
      if Nat.eqb (length (rx_buffer s1)) 0
         && state_eqb (state s1) CLOSE_WAIT
      then Some (None, s1)
      else
        let count :=
          match byte_count with
          | None => len (rx_buffer s1)
          | Some c => Z.min c (len (rx_buffer s1))
          end in
        let data := slice_to (rx_buffer s1) count in
        let s2 := set_rx_buffer (slice_from (rx_buffer s1) count) s1 in
        let s3 :=
          if truthy (len (rx_buffer s2)) || state_eqb (state s2) CLOSE_WAIT
          then release_rx_buffer s2
          else s2 in
        Some (Some data, s3)
  end.


(** *** The timer thread driving the session *)

(** The callable that [__init__] registers with the stack timer:
    [method=self.tcp_fsm, kwargs={"timer": True}]. *)
Inductive Method : Type := TcpFsmTimer.

Definition invoke (m : Method) (w : TcpSession * Stack)
    : option exn * (TcpSession * Stack) :=
  let '(e, s, k) := tcp_fsm w.1 w.2 None None true in (e, (s, k)).

(** No stop condition is ever registered. *)
Definition holds (c : Empty_set) (w : TcpSession * Stack) : bool :=
  match c with end.

Definition Task : Type := StackTimer.StackTimerTask Method Empty_set.

(** [register_method(method=self.tcp_fsm, kwargs={"timer": True})] with the
    defaults [delay=1, delay_exp=False, repeat_count=-1,
    stop_condition=None]. *)
Definition fsm_task : Task := StackTimer.new_task TcpFsmTimer 1 false (-1) None.

(** A session, the stack, and the tasks of the stack timer. *)
Record System : Type := mkSystem {
  session : TcpSession;
  stack : Stack;
  tasks : list Task
}.

(** One iteration of the loop of StackTimer.__thread_timer.  An exception
    that a task raises ends the thread, before the tasks are reaped. *)
Definition thread_timer_iteration (y : System) : option exn * System :=
  let k1 :=
    set_timers
      (StackTimer.cleanup_timers
         (StackTimer.decrement_timers (timers (stack y)))) (stack y) in
  match StackTimer.tick_tasks invoke holds (tasks y) (session y, k1) with
  | (Some e, ts, (s, k)) => (Some e, mkSystem s k ts)
  | (None, ts, (s, k)) => (None, mkSystem s k (StackTimer.reap ts))
  end.

(** [n] iterations of the timer thread *)
Fixpoint thread_timer (n : nat) (y : System) : option exn * System :=
  match n with
  | O => (None, y)
  | S m =>
      match thread_timer_iteration y with
      | (Some e, y') => (Some e, y')
      | (None, y') => thread_timer m y'
      end
  end.

(** The stack before any session exists. *)
Definition empty_stack (mtu0 win0 mss0 : Z) (rnd : nat -> Z) : Stack :=
  {| mtu := mtu0; local_tcp_win := win0; local_tcp_mss := mss0;
     timers := ∅; tcp_sessions := ∅; phtx_tcp := [];
     event_tcp_session_established := ∅; created := [];
     randint := rnd; randint_calls := 0 |}.

(** A session constructed on a stack, with its timer task registered. *)
Definition boot (k : Stack) (lip : string) (lport : Z) (rip : string)
    (rport : Z) (sock : option nat) : System :=
  let '(s, k1) := new_session k lip lport rip rport sock in
  mkSystem s k1 [fsm_task].

(** [connect()] issued on the session of a system, up to the point where the
    caller waits. *)
Definition issue_connect (y : System) : option exn * System :=
  let '(e, s, k) := connect_syscall (session y) (stack y) in
  (e, mkSystem s k (tasks y)).

(** *** The life of a session *)

(** What happens to a session: a call of [tcp_fsm] (by the packet handler
    with a packet, by [listen], [connect] and [close] with a system call, by
    the timer task with [timer=True]), a call of [send], a call of
    [receive] that gets past the semaphore, and the return of [connect]. *)
Inductive Event : Type :=
  | CallFsm (packet : option Packet.t) (syscall : option Syscall)
      (timer : bool)
  | CallSend (raw_data : list byte)
  | CallReceive (byte_count : option Z)
  | ReturnConnect.

Definition happen (e : Event) (s : TcpSession) (k : Stack)
    : TcpSession * Stack :=
  match e with
  | CallFsm packet syscall timer =>
      let '(_, s', k') := tcp_fsm s k packet syscall timer in (s', k')
  | CallSend raw_data => ((send raw_data s).2, k)
  | CallReceive byte_count =>
      match receive byte_count s with
      | Some (_, s') => (s', k)
      | None => (s, k)
      end
  | ReturnConnect =>
      match connect_return s with
      | Some (_, s') => (s', k)
      | None => (s, k)
      end
  end.

(** The sessions that exist: a session is constructed on some stack, and
    then events happen to it one at a time, each on the stack as the rest of
    the system has left it. *)
Inductive alive : TcpSession -> Prop :=
  | alive_new k lip lport rip rport sock :
      alive (new_session k lip lport rip rport sock).1
  | alive_next s k e :
      alive s -> alive (happen e s k).1.

(** The events one after the other, each on the stack the one before left *)
Fixpoint happen_all (es : list Event) (s : TcpSession) (k : Stack)
    : TcpSession * Stack :=
  match es with
  | [] => (s, k)
  | e :: rest => let '(s', k') := happen e s k in happen_all rest s' k'
  end.

(** What holds of the sequence numbers and buffers of every session:
    nothing is acknowledged that was not sent, and [tx_buffer_seq_mod] is at
    most one ahead of [local_seq_ackd]; a session whose [rx_buffer] holds
    data has its semaphore posted; and in ESTABLISHED and CLOSE_WAIT
    [tx_buffer_seq_mod] is not ahead of [local_seq_ackd] at all and what was
    sent lies inside [tx_buffer]. *)
Definition sequence_ok (s : TcpSession) : Prop :=
  local_seq_ackd s <= local_seq_sent s
  /\ tx_buffer_seq_mod s <= local_seq_ackd s + 1.

Definition window_ok (s : TcpSession) : Prop :=
  tx_buffer_seq_mod s <= local_seq_ackd s
  /\ tx_buffer_seq_sent s <= len (tx_buffer s).

Definition signal_ok (s : TcpSession) : Prop :=
  rx_buffer s <> [] -> (1 <= event_rx_buffer s)%nat.

Definition transfers (st : State) : Prop :=
  st = ESTABLISHED \/ st = CLOSE_WAIT.

Definition session_ok (s : TcpSession) : Prop :=
  sequence_ok s /\ signal_ok s /\ (transfers (state s) -> window_ok s).

(** Following the spec: the comparison of two sequence numbers modulo 2^32
    that it calls wrap-safe, [a] being at most half the number space behind
    [b]. *)
Definition wrap_le (a b : Z) : Prop := (b - a) mod 2 ^ 32 < 2 ^ 31.

(** Following the spec: the larger of two sequence numbers under that
    comparison, the maximum the spec calls wrap-safe. *)
Definition wrap_leb (a b : Z) : bool := (b - a) mod 2 ^ 32 <? 2 ^ 31.

Definition wrap_max (a b : Z) : Z := if wrap_leb a b then b else a.

(** *** Segments from the peer *)




(** *** Segments of the session *)


(** What one call of [tcp_fsm] may add to the segments sent: nothing, or
    one segment, which does not have the RST flag *)
Definition one_segment_at_most (k k' : Stack) : Prop :=
  phtx_tcp k' = phtx_tcp k
  \/ exists g,
       phtx_tcp k' = phtx_tcp k ++ [g] /\ Segment.tcp_flag_rst g = false.


(** *** A connection attempt that nobody answers *)

Section Unanswered.

Variables (mtu0 win0 mss0 : Z) (rnd : nat -> Z).
Variables (lip : string) (lport : Z) (rip : string) (rport : Z).
Variable sock : option nat.

(** The system when [connect()] has made its call of [tcp_fsm] *)
Definition connect_issued : System :=
  (issue_connect
     (boot (empty_stack mtu0 win0 mss0 rnd) lip lport rip rport sock)).2.

(** The SYN of the session, with the initial sequence number *)
Definition syn_segment : Segment.t :=
  Segment.mk lip rip lport rport (rnd 0%nat) (Some 0) true false false false
    win0 (Some mss0) [].

(** Where the session is while nobody answers: before the first tick of the
    timer; waiting with [count] SYNs sent again and [ticks] ticks to go on
    the timer; given up. *)
Inductive Phase : Type :=
  | Issued
  | Waiting (count : nat) (ticks : Z)
  | GivenUp (init : bool).

Definition next_phase (p : Phase) : Phase :=
  match p with
  | Issued => Waiting 0 PACKET_RESEND_DELAY
  | Waiting count ticks =>
      if ticks =? 1 then
        if Nat.eqb count PACKET_RESEND_COUNT then GivenUp true
        else Waiting (S count)
               (PACKET_RESEND_DELAY * Z.shiftl 1 (Z.of_nat (S count)))
      else Waiting count (ticks - 1)
  | GivenUp _ => GivenUp false
  end.

(** The phase after [n] iterations of the timer thread *)
Definition phase_after (n : Z) : Phase :=
  if n <=? 0 then Issued
  else if n <=? 1000 then Waiting 0 (1001 - n)
  else if n <=? 3000 then Waiting 1 (3001 - n)
  else if n <=? 7000 then Waiting 2 (7001 - n)
  else if n <=? 15000 then Waiting 3 (15001 - n)
  else if n <=? 31000 then Waiting 4 (31001 - n)
  else if n <=? 31001 then GivenUp true
  else GivenUp false.

(** The SYNs sent after [n] iterations of the timer thread *)
Definition syns_after (n : Z) : nat :=
  if n <=? 1000 then 1
  else if n <=? 3000 then 2
  else if n <=? 7000 then 3
  else if n <=? 15000 then 4
  else 5.

Definition phase_session (p : Phase) : TcpSession :=
  {| local_ip_address := lip; local_port := lport;
     remote_ip_address := rip; remote_port := rport;
     socket := sock;
     rx_buffer := []; tx_buffer := [];
     remote_seq_init := None; remote_seq_rcvd := None;
     remote_seq_ackd := None;
     local_seq_init := rnd 0%nat; local_seq_sent := rnd 0%nat + 1;
     local_seq_ackd := rnd 0%nat;
     local_seq_fin := None;
     tx_buffer_seq_mod := rnd 0%nat + 1;
     state := match p with GivenUp _ => CLOSED | _ => SYN_SENT end;
     state_init :=
       match p with
       | Issued => true
       | Waiting _ _ => false
       | GivenUp init => init
       end;
     local_win := win0; local_mss := mss0;
     remote_win := None; remote_mss := None;
     event_connect := 0%nat; event_rx_buffer := 0%nat;
     syn_sent_resend_count :=
       match p with
       | Issued => None
       | Waiting count _ => Some count
       | GivenUp _ => Some PACKET_RESEND_COUNT
       end;
     syn_rcvd_resend_count := None |}.

Definition phase_stack (p : Phase) : Stack :=
  {| mtu := mtu0; local_tcp_win := win0; local_tcp_mss := mss0;
     timers :=
       match p with
       | Waiting _ ticks =>
           {[tcp_session_id (phase_session p) +:+ "syn_sent" := ticks]}
       | _ => ∅
       end;
     tcp_sessions := ∅;
     phtx_tcp :=
       repeat syn_segment
         match p with
         | Issued => 1
         | Waiting count _ => S count
         | GivenUp _ => S PACKET_RESEND_COUNT
         end;
     event_tcp_session_established := ∅; created := [];
     randint := rnd; randint_calls := 1 |}.

(** The system in a phase, its timer task having fired [fired] times *)
Definition phase_system (p : Phase) (fired : nat) : System :=
  mkSystem (phase_session p) (phase_stack p)
    [StackTimer.mkTask TcpFsmTimer 1 false (-1) None 1 fired].

(** A phase that the attempt can be in *)
Definition reachable_phase (p : Phase) : Prop :=
  match p with
  | Waiting count ticks => 1 <= ticks /\ (count <= PACKET_RESEND_COUNT)%nat
  | _ => True
  end.

End Unanswered.

(** *** A session to try things on *)

Module Example.

Definition stack0 : Stack := empty_stack 1500 65535 1460 (fun _ => 1000).

(** The packet of a peer at 192.168.9.102, port 7 *)
Definition from_peer (syn ack fin rst : bool) (seq ackn : Z)
    (data : list byte) : Packet.t :=
  Packet.mk syn ack fin rst seq ackn data 1460 65535
    "192.168.9.7" 5000 "192.168.9.102" 7.

(** A new session with the initial sequence number 1000 *)
Definition fresh : TcpSession * Stack :=
  new_session stack0 "192.168.9.7" 5000 "192.168.9.102" 7 (Some 0%nat).

(** [connect()] was called and waits. *)
Definition connecting : TcpSession * Stack :=
  happen (CallFsm None (Some SYS_CONNECT) false) fresh.1 fresh.2.

(** The peer has answered with SYN+ACK, and a tick of the timer has
    initialised ESTABLISHED. *)
Definition established : TcpSession * Stack :=
  happen_all
    [CallFsm (Some (from_peer true true false false 5000 1001 [])) None false;
     CallFsm None None true]
    connecting.1 connecting.2.

(** A new session on which [listen()] was called, put into the table of
    sessions under its name. *)
Definition listening : TcpSession * Stack :=
  let '(_, s, k) := listen fresh.1 fresh.2 in
  (s, set_tcp_sessions (<[tcp_session_id s := ThisSession]> (tcp_sessions k))
        k).

(** [close()] was called in ESTABLISHED: the FIN is sent. *)
Definition fin_sent : TcpSession * Stack :=
  happen (CallFsm None (Some SYS_CLOSE) false) established.1 established.2.

(** The peer has acknowledged the FIN. *)
Definition fin_ack : Packet.t := from_peer false true false false 5001 1002 [].

(** The peer has closed: FIN+ACK without data in ESTABLISHED. *)
Definition close_wait : TcpSession * Stack :=
  happen (CallFsm (Some (from_peer false true true false 5001 1001 []))
            None false)
    established.1 established.2.

(** The peer has sent the two bytes "AB" in ESTABLISHED. *)
Definition data_arrived : TcpSession * Stack :=
  happen (CallFsm (Some (from_peer false true false false 5001 1001
                           [x41; x42]))
            None false)
    established.1 established.2.

(** Three bytes were sent in ESTABLISHED: [send()] has put them into
    [tx_buffer] and a tick of the timer has sent them in one segment. *)
Definition data_sent : TcpSession * Stack :=
  happen_all [CallSend [x41; x42; x43]; CallFsm None None true]
    established.1 established.2.

(** The peer acknowledges the three bytes. *)
Definition data_ack : Packet.t :=
  from_peer false true false false 5001 1004 [].

(** A passive open that the application closes before the handshake is
    over: the SYN of the peer has made the listening session SYN_RCVD, and
    the CLOSE system call has made it FIN_WAIT_1. *)
Definition closed_early : TcpSession * Stack :=
  happen_all
    [CallFsm (Some (from_peer true false false false 5000 0 [])) None false;
     CallFsm None (Some SYS_CLOSE) false]
    listening.1 listening.2.

(** An ACK of the peer that acknowledges nothing new, not even the SYN *)
Definition stale_ack : Packet.t :=
  from_peer false true false false 5001 1000 [].

(** A session whose initial sequence number is six below 2^32, in
    ESTABLISHED, that has sent twenty bytes: their sequence numbers run
    past 2^32. *)
Definition high_stack : Stack :=
  empty_stack 1500 65535 1460 (fun _ => 4294967290).

Definition twenty_bytes : list byte := repeat x41 20.

Definition high_sent : TcpSession * Stack :=
  let '(s, k) :=
    new_session high_stack "192.168.9.7" 5000 "192.168.9.102" 7
      (Some 0%nat) in
  happen_all
    [CallFsm None (Some SYS_CONNECT) false;
     CallFsm (Some (from_peer true true false false 5000 4294967291 []))
       None false;
     CallFsm None None true;
     CallSend twenty_bytes;
     CallFsm None None true]
    s k.

(** The acknowledgement of the twenty bytes as the 32 bits of a TCP header
    carry it: 4294967311 modulo 2^32. *)
Definition wrapped_ack : Packet.t :=
  from_peer false true false false 5001 15 [].

End Example.

End Tcp.

(** ** ps_dhcp.py *)

Module Dhcp.

Definition DHCP_HEADER_LEN : Z := 224.

(** The values an attribute of a packet object holds. *)
Inductive value : Type :=
  | VInt (n : Z)
  | VBool (b : bool)
  | VStr (s : string)
  | VBytes (b : list byte).

(** An object is the dictionary of its instance attributes.  The class
    [DhcpPacket] itself only has [protocol] and its methods and properties,
    none of which the code below reads as an instance attribute. *)
Definition object : Type := gmap string value.

(** A computation that may raise: [x ← c; k] runs [k] when [c] returns. *)
#[global] Instance exn_bind : MBind (sum exn) :=
  fun A B f c =>
    match c with
    | inl e => inl e
    | inr x => f x
    end.

(** [self.name] *)
Definition getattr (self : object) (name : string) : exn + value :=
  match self !! name with
  | Some v => inr v
  | None => inl (AttributeError name)
  end.

(** [self.name = v] *)
Definition setattr (name : string) (v : value) (self : object) : object :=
  <[name := v]> self.

(** An operand that has to be an [int]; [bool] is a subclass of [int]. *)
Definition as_int (v : value) : exn + Z :=
  match v with
  | VInt n => inr n
  | VBool b => inr (Z.b2z b)
  | _ => inl TypeError
  end.

Definition as_str (v : value) : exn + string :=
  match v with
  | VStr s => inr s
  | _ => inl TypeError
  end.

Definition byte_of_Z (n : Z) : byte :=
  default x00 (Byte.of_N (Z.to_N (n mod 256))).

Definition Z_of_byte (b : byte) : Z := Z.of_N (Byte.to_N b).

(** [b[i]] for a constant index [i >= 0] *)
Definition byte_at (b : list byte) (i : nat) : exn + Z :=
  match b !! i with
  | Some x => inr (Z_of_byte x)
  | None => inl IndexError
  end.

(** Big-endian number of a byte string *)
Definition be_decode (b : list byte) : Z :=
  fold_left (fun acc x => acc * 256 + Z_of_byte x) b 0.

(** Big-endian byte string, [n] bytes long, of a number *)
Fixpoint be_encode (n : nat) (v : Z) : list byte :=
  match n with
  | O => []
  | S m => be_encode m (v / 256) ++ [byte_of_Z v]
  end.

(** [struct.pack] and [struct.unpack] for one field in network byte order:
    "B", "H" and "L" are unsigned numbers of 1, 2 and 4 bytes, and "<n>s" is
    a byte string cut or filled with zero bytes to [n] bytes. *)
Definition pack_uint (width : nat) (v : Z) : exn + list byte :=
  if (0 <=? v) && (v <? 256 ^ Z.of_nat width)
  then inr (be_encode width v)
  else inl StructError.

Definition unpack_uint (width : nat) (b : list byte) : exn + Z :=
  if Nat.eqb (length b) width then inr (be_decode b) else inl StructError.

Definition pack_s (n : nat) (v : value) : exn + list byte :=
  match v with
  | VBytes b => inr (firstn n (b ++ repeat x00 n))
  | _ => inl StructError
  end.

Definition unpack_s (n : nat) (b : list byte) : exn + list byte :=
  if Nat.eqb (length b) n then inr b else inl StructError.

(** [socket.inet_ntoa]: the dotted-decimal text of four bytes. *)
Definition inet_ntoa (b : list byte) : exn + string :=
  match b with
  | [b0; b1; b2; b3] =>
      inr (pretty (Z_of_byte b0) +:+ "." +:+ pretty (Z_of_byte b1) +:+ "."
           +:+ pretty (Z_of_byte b2) +:+ "." +:+ pretty (Z_of_byte b3))
  | _ => inl OSError
  end.

Definition digit_of (c : ascii) : option Z :=
  let n := Z.of_N (N_of_ascii c) in
  if (48 <=? n) && (n <=? 57) then Some (n - 48) else None.

Definition hexdigit_of (c : ascii) : option Z :=
  let n := Z.of_N (N_of_ascii c) in
  if (48 <=? n) && (n <=? 57) then Some (n - 48)
  else if (97 <=? n) && (n <=? 102) then Some (n - 87)
  else if (65 <=? n) && (n <=? 70) then Some (n - 55)
  else None.

(** The decimal number that a non-empty string of digits writes *)
Fixpoint decimal (acc : Z) (seen : bool) (s : string) : option Z :=
  match s with
  | EmptyString => if seen then Some acc else None
  | String c rest =>
      match digit_of c with
      | Some d => decimal (acc * 10 + d) true rest
      | None => None
      end
  end.

(** [s.split(".")] *)
Fixpoint split_dots (cur : string) (s : string) : list string :=
  match s with
  | EmptyString => [String.rev cur]
  | String c rest =>
      if Ascii.eqb c "."%char then String.rev cur :: split_dots "" rest
      else split_dots (String c cur) rest
  end.

(** [socket.inet_aton] on the four-part decimal form, the only form the
    packets of this stack carry; any other text is refused here. *)
Definition inet_aton (s : string) : exn + list byte :=
  match List.map (decimal 0 false) (split_dots "" s) with
  | [Some a; Some b; Some c; Some d] =>
      if forallb (fun x => x <=? 255) [a; b; c; d]
      then inr (List.map byte_of_Z [a; b; c; d])
      else inl OSError
  | _ => inl OSError
  end.

(** [s.replace(":", "")] *)
Fixpoint remove_colons (s : string) : string :=
  match s with
  | EmptyString => EmptyString
  | String c rest =>
      if Ascii.eqb c ":"%char then remove_colons rest
      else String c (remove_colons rest)
  end.

(** [bytes.fromhex] on a string without white space *)
Fixpoint fromhex (s : string) : exn + list byte :=
  match s with
  | EmptyString => inr []
  | String c1 (String c2 rest) =>
      match hexdigit_of c1, hexdigit_of c2 with
      | Some h, Some l =>
          tl ← fromhex rest; inr (byte_of_Z (h * 16 + l) :: tl)
      | _, _ => inl ValueError
      end
  | String _ EmptyString => inl ValueError
  end.

(** The packet of the lower layer that carries a DHCP packet: here, its
    payload. *)
Record ParentPacket : Type := { raw_data : list byte }.

(** DhcpPacket.__init__, the branch [if parent_packet:] that parses.  The
    tracker, a serial number for the log, is left out. *)
Definition parse (parent_packet : ParentPacket) : exn + object :=
  let raw_packet := raw_data parent_packet in
  let raw_header := slice_to raw_packet DHCP_HEADER_LEN in
  let self := setattr "raw_options"
                (VBytes (slice_from raw_packet DHCP_HEADER_LEN)) ∅ in
  v ← byte_at raw_header 0;
  let self := setattr "dhcp_op" (VInt v) self in
  v ← byte_at raw_header 1;
  let self := setattr "dhcp_htype" (VInt v) self in
  v ← byte_at raw_header 2;
  let self := setattr "dhcp_hlen" (VInt v) self in
  v ← byte_at raw_header 3;
  let self := setattr "dhcp_hops" (VInt v) self in
  v ← unpack_uint 4 (slice raw_header 4 8);
  let self := setattr "dhcp_xid" (VInt v) self in
  v ← unpack_uint 2 (slice raw_header 8 10);
  let self := setattr "dhcp_secs" (VInt v) self in
  v ← unpack_uint 2 (slice raw_header 10 12);
  let self := setattr "dhcp_flag_b" (VBool (truthy (Z.land v 32768))) self in
  v ← (b ← unpack_s 4 (slice raw_header 12 16); inet_ntoa b);
  let self := setattr "dhcp_ciaddr" (VStr v) self in
  v ← (b ← unpack_s 4 (slice raw_header 16 20); inet_ntoa b);
  let self := setattr "dhcp_yiaddr" (VStr v) self in
  v ← (b ← unpack_s 4 (slice raw_header 20 24); inet_ntoa b);
  let self := setattr "dhcp_siaddr" (VStr v) self in
  v ← (b ← unpack_s 4 (slice raw_header 24 28); inet_ntoa b);
  let self := setattr "dhcp_giaddr" (VStr v) self in
  hw ← (a ← getattr self "dhcp_hw_len"; as_int a);
  let self := setattr "dhcp_chaddr"
                (VBytes (slice raw_header 28 (28 + hw))) self in
  let self := setattr "dhcp_sname" (VBytes (slice raw_header 44 108)) self in
  let self := setattr "dhcp_file" (VBytes (slice raw_header 108 236)) self in
  inr self.

(** DhcpPacket.__init__, the branch that builds *)
Definition build (dhcp_xid : Z) (dhcp_chaddr : string) : object :=
  let self := setattr "dhcp_op" (VInt 1) ∅ in
  let self := setattr "dhcp_htype" (VInt 1) self in
  let self := setattr "dhcp_hlen" (VInt 6) self in
  let self := setattr "dhcp_hops" (VInt 0) self in
  let self := setattr "dhcp_xid" (VInt dhcp_xid) self in
  let self := setattr "dhcp_secs" (VInt 0) self in
  let self := setattr "dhcp_flag_b" (VBool false) self in
  let self := setattr "dhcp_ciaddr" (VStr "0.0.0.0") self in
  let self := setattr "dhcp_yiaddr" (VStr "0.0.0.0") self in
  let self := setattr "dhcp_siaddr" (VStr "0.0.0.0") self in
  let self := setattr "dhcp_giaddr" (VStr "0.0.0.0") self in
  let self := setattr "dhcp_chaddr" (VStr dhcp_chaddr) self in
  let self := setattr "dhcp_sname" (VBytes (repeat x00 64)) self in
  let self := setattr "dhcp_file" (VBytes (repeat x00 128)) self in
  setattr "raw_options" (VBytes []) self.

(** DhcpPacket.__init__ *)
Definition DhcpPacket (parent_packet : option ParentPacket) (dhcp_xid : Z)
    (dhcp_chaddr : string) : exn + object :=
  match parent_packet with
  | Some p => parse p
  | None => inr (build dhcp_xid dhcp_chaddr)
  end.

Definition magic_cookie : list byte := [x63; x82; x53; x63].

(** The property [raw_header]: the arguments are evaluated from left to
    right, then [struct.pack] lays the fields out. *)
Definition raw_header (self : object) : exn + list byte :=
  op ← (a ← getattr self "dhcp_op"; as_int a);
  htype ← (a ← getattr self "dhcp_htype"; as_int a);
  hlen ← (a ← getattr self "dhcp_hlen"; as_int a);
  hops ← (a ← getattr self "dhcp_hops"; as_int a);
  xid ← (a ← getattr self "dhcp_xid"; as_int a);
  secs ← (a ← getattr self "dhcp_secs"; as_int a);
  flag_b ← (a ← getattr self "dhcp_flag_b"; as_int a);
  ciaddr ← (a ← getattr self "dhcp_ciaddr"; a ← as_str a; inet_aton a);
  yiaddr ← (a ← getattr self "dhcp_yiaddr"; a ← as_str a; inet_aton a);
  siaddr ← (a ← getattr self "dhcp_siaddr"; a ← as_str a; inet_aton a);
  giaddr ← (a ← getattr self "dhcp_giaddr"; a ← as_str a; inet_aton a);
  chaddr ← (a ← getattr self "dhcp_chaddr"; a ← as_str a;
             fromhex (remove_colons a));
  sname ← getattr self "dhcp_sname";
  file ← getattr self "dhcp_file";
  f1 ← pack_uint 1 op;
  f2 ← pack_uint 1 htype;
  f3 ← pack_uint 1 hlen;
  f4 ← pack_uint 1 hops;
  f5 ← pack_uint 4 xid;
  f6 ← pack_uint 2 secs;
  f7 ← pack_uint 2 (Z.shiftl flag_b 15);
  f8 ← pack_s 4 (VBytes ciaddr);
  f9 ← pack_s 4 (VBytes yiaddr);
  f10 ← pack_s 4 (VBytes siaddr);
  f11 ← pack_s 4 (VBytes giaddr);
  f12 ← pack_s 16 (VBytes (firstn 16 (chaddr ++ repeat x00 16)));
  f13 ← pack_s 64 sname;
  f14 ← pack_s 128 file;
  f15 ← pack_s 4 (VBytes magic_cookie);
  inr (f1 ++ f2 ++ f3 ++ f4 ++ f5 ++ f6 ++ f7 ++ f8 ++ f9 ++ f10 ++ f11
       ++ f12 ++ f13 ++ f14 ++ f15).

(** The property [raw_packet] *)
Definition raw_packet (self : object) : exn + list byte :=
  h ← raw_header self;
  o ← getattr self "raw_options";
  match o with
  | VBytes options => inr (h ++ options)
  | _ => inl TypeError
  end.

(** The 236 bytes of the BOOTP header of a built packet *)
Definition bootp_header (dhcp_xid : Z) (mac : list byte) : list byte :=
  [x01; x01; x06; x00] ++ be_encode 4 dhcp_xid ++ repeat x00 4
  ++ repeat x00 16 ++ firstn 16 (mac ++ repeat x00 16) ++ repeat x00 64
  ++ repeat x00 128.

End Dhcp.

(** ** ph.py, phrx_arp.py and the part of arp_cache.py they use *)

Module Arp.

(** Modelled from the spec: the constants [ARP_OP_REQUEST] and
    [ARP_OP_REPLY] of the module [ps_arp], which is not part of these
    sources; the spec takes the ARP wire format from RFC 826, where a
    request is 1 and a reply is 2. *)
Definition ARP_OP_REQUEST : Z := 1.
Definition ARP_OP_REPLY : Z := 2.

Definition ARP_CACHE_UPDATE_FROM_DIRECT_REQUEST : bool := true.
Definition ARP_CACHE_UPDATE_FROM_GRATUITOUS_REPLY : bool := true.

(** The attributes of the received frame and of the ARP packet in it that
    the handler reads. *)
Record EtherPacket : Type := { ether_dst : string }.

Record ArpPacket : Type := mkArp {
  arp_oper : Z;
  arp_sha : string;
  arp_spa : string;
  arp_tha : string;
  arp_tpa : string
}.

(** A frame as the thread of [__packet_handler] passes it on to [phrx_arp],
    with the reading of [time.time()] at that moment. *)
Record Frame : Type := {
  ether_packet_rx : EtherPacket;
  arp_packet_rx : ArpPacket;
  arrival : Z
}.

(** One call of [phtx_arp], with its keyword arguments (without the
    tracker). *)
Record ArpTx : Type := mkArpTx {
  tx_ether_src : string;
  tx_ether_dst : string;
  tx_arp_oper : Z;
  tx_arp_sha : string;
  tx_arp_spa : string;
  tx_arp_tha : string;
  tx_arp_tpa : string
}.

(** ArpCache.__Entry *)
Record Entry : Type := {
  mac_address : string;
  creation_time : Z;
  hit_count : Z
}.

(** class PacketHandler: the attributes [__init__] and [phrx_arp] use, the
    dictionary of the ARP cache it refers to, and the calls of [phtx_arp]
    (oldest first). *)
Record PacketHandler : Type := mkHandler {
  arp_probe_conflict_detected : bool;
  ip_address_claimed : bool;
  stack_mac_address : string;
  stack_ip_address : string;
  arp_cache : gmap string Entry;
  phtx_arp : list ArpTx
}.

Definition send (t : ArpTx) (h : PacketHandler) : PacketHandler :=
  mkHandler (arp_probe_conflict_detected h) (ip_address_claimed h)
    (stack_mac_address h) (stack_ip_address h) (arp_cache h)
    (phtx_arp h ++ [t]).

Definition set_arp_probe_conflict_detected (v : bool) (h : PacketHandler)
    : PacketHandler :=
  mkHandler v (ip_address_claimed h) (stack_mac_address h)
    (stack_ip_address h) (arp_cache h) (phtx_arp h).

Definition set_ip_address_claimed (v : bool) (h : PacketHandler)
    : PacketHandler :=
  mkHandler (arp_probe_conflict_detected h) v (stack_mac_address h)
    (stack_ip_address h) (arp_cache h) (phtx_arp h).

(** ArpCache.add_entry *)
Definition add_entry (ip_address mac : string) (now : Z) (h : PacketHandler)
    : PacketHandler :=
  mkHandler (arp_probe_conflict_detected h) (ip_address_claimed h)
    (stack_mac_address h) (stack_ip_address h)
    (<[ip_address := {| mac_address := mac; creation_time := now;
                        hit_count := 0 |}]> (arp_cache h))
    (phtx_arp h).

Definition broadcast : string := "ff:ff:ff:ff:ff:ff".

(** phrx_arp *)
Definition phrx_arp (h : PacketHandler) (f : Frame) : PacketHandler :=
  let e := ether_packet_rx f in
  let a := arp_packet_rx f in
  if arp_oper a =? ARP_OP_REQUEST then
    if String.eqb (arp_tpa a) (stack_ip_address h) then
      let h1 :=
        send (mkArpTx (stack_mac_address h) (arp_sha a) ARP_OP_REPLY
                (stack_mac_address h) (stack_ip_address h) (arp_sha a)
                (arp_spa a)) h in
      if ARP_CACHE_UPDATE_FROM_DIRECT_REQUEST
      then add_entry (arp_spa a) (arp_sha a) (arrival f) h1
      else h1
    else h
  else if arp_oper a =? ARP_OP_REPLY then
    if String.eqb (ether_dst e) (stack_mac_address h)
       && (String.eqb (arp_spa a) (stack_ip_address h)
           && String.eqb (arp_tha a) (stack_mac_address h)
           && String.eqb (arp_tpa a) "0.0.0.0")
    then set_arp_probe_conflict_detected true h
    else if String.eqb (ether_dst e) (stack_mac_address h)
    then add_entry (arp_spa a) (arp_sha a) (arrival f) h
    else if String.eqb (ether_dst e) broadcast
            && String.eqb (arp_spa a) (arp_tpa a)
            && ARP_CACHE_UPDATE_FROM_GRATUITOUS_REPLY
    then add_entry (arp_spa a) (arp_sha a) (arrival f) h
    else h
  else h.

(** What the thread of [__packet_handler] does with the ARP frames that
    arrive while [__init__] sleeps. *)
Definition receive_all (fs : list Frame) (h : PacketHandler)
    : PacketHandler :=
  fold_left phrx_arp fs h.

(** PacketHandler.__send_arp_probe *)
Definition send_arp_probe (h : PacketHandler) : PacketHandler :=
  send (mkArpTx (stack_mac_address h) broadcast ARP_OP_REQUEST
          (stack_mac_address h) "0.0.0.0" "00:00:00:00:00:00"
          (stack_ip_address h)) h.

(** The frame [__send_arp_announcement] sends *)
Definition announcement (h : PacketHandler) : ArpTx :=
  mkArpTx (stack_mac_address h) broadcast ARP_OP_REQUEST
    (stack_mac_address h) (stack_ip_address h) "00:00:00:00:00:00"
    (stack_ip_address h).

(** PacketHandler.__send_arp_announcement *)
Definition send_arp_announcement (h : PacketHandler) : PacketHandler :=
  send (announcement h) h.

(** PacketHandler.__send_gratitous_arp *)
Definition send_gratitous_arp (h : PacketHandler) : PacketHandler :=
  send (mkArpTx (stack_mac_address h) broadcast ARP_OP_REPLY
          (stack_mac_address h) (stack_ip_address h) "00:00:00:00:00:00"
          (stack_ip_address h)) h.

(** The loop [for i in range(3)] of [__init__]: a probe, a second of sleep
    during which the frames [during i] are handled, and the test of the
    flag.  The boolean tells whether the loop ended in the [return]. *)
Fixpoint probe (rounds : list nat) (during : nat -> list Frame)
    (h : PacketHandler) : bool * PacketHandler :=
  match rounds with
  | [] => (false, h)
  | i :: rest =>
      let h1 := receive_all (during i) (send_arp_probe h) in
      if arp_probe_conflict_detected h1 then (true, h1)
      else probe rest during h1
  end.

(** PacketHandler.__init__.  [during 0], [during 1] and [during 2] are the
    frames handled in the second after each probe, [during 3] those handled
    in the second before the gratuitous ARP. *)
Definition init (mac ip : string) (cache : gmap string Entry)
    (during : nat -> list Frame) : PacketHandler :=
  let h0 := mkHandler false false mac ip cache [] in
  let '(stop, h1) := probe (seq 0 3) during h0 in
  if stop then h1
  else
    let h2 := set_ip_address_claimed true (send_arp_announcement h1) in
    send_gratitous_arp (receive_all (during 3%nat) h2).

(** The reply of a host that already uses the address, as the claim
    describes it. *)
Definition conflicting (mac ip : string) (f : Frame) : Prop :=
  arp_oper (arp_packet_rx f) = ARP_OP_REPLY
  /\ arp_tha (arp_packet_rx f) = mac
  /\ arp_spa (arp_packet_rx f) = ip
  /\ arp_tpa (arp_packet_rx f) = "0.0.0.0"%string.





(** *** arp_cache.py *)









(** A call of [phtx_arp] that announces the address [ip]: a request whose
    sender address is [ip]. *)
Definition announces (ip : string) (t : ArpTx) : Prop :=
  tx_arp_oper t = ARP_OP_REQUEST /\ tx_arp_spa t = ip.

(** A handler for [mac] and [ip] that has not claimed the address and has
    announced nothing *)
Definition unclaimed (mac ip : string) (h : PacketHandler) : Prop :=
  stack_mac_address h = mac /\ stack_ip_address h = ip
  /\ ip_address_claimed h = false
  /\ Forall (fun t => ~ announces ip t) (phtx_arp h).

(** A reply as the claim describes it, but broadcast on the Ethernet *)
Definition broadcast_reply : Frame :=
  {| ether_packet_rx := {| ether_dst := broadcast |};
     arp_packet_rx :=
       mkArp ARP_OP_REPLY "52:54:00:df:85:37" "192.168.9.7"
         "02:00:00:77:77:77" "0.0.0.0";
     arrival := 0 |}.

(** The same reply sent to the MAC address of the stack *)
Definition unicast_reply : Frame :=
  {| ether_packet_rx := {| ether_dst := "02:00:00:77:77:77" |};
     arp_packet_rx :=
       mkArp ARP_OP_REPLY "52:54:00:df:85:37" "192.168.9.7"
         "02:00:00:77:77:77" "0.0.0.0";
     arrival := 0 |}.

End Arp.

(** * Properties *)

(** ** The stack timer *)

Section TickFacts.

Context {W Method Stop : Type}.
Variable invoke : Method -> W -> option exn * W.
Variable holds : Stop -> W -> bool.

Lemma shiftl_is_mul (d : Z) (n : nat) :
  d * Z.shiftl 1 (Z.of_nat n) = Z.shiftl d (Z.of_nat n).
Proof.
  rewrite !Z.shiftl_mul_pow2 by lia. lia.
Qed.

Lemma reap_expired (t : StackTimer.StackTimerTask Method Stop) :
  StackTimer.reap [StackTimer.with_remaining 0 t] = [].
Proof. reflexivity. Qed.

(** C7. One tick of a timer task.  The remaining delay goes down by one.
    If the stop condition holds, the remaining delay is set to 0, the
    callable is not invoked, and the thread drops the task after the tick.
    Otherwise, if the countdown is not at zero the task only keeps the
    decremented delay; if it is at zero the callable is invoked and, when
    the repeat count is not 0, the delay is set anew to [delay << factor]
    for an exponential task and to [delay] otherwise, the factor goes up by
    one and a non-negative repeat count goes down by one; when the repeat
    count is 0 the remaining delay stays 0 and the thread drops the task
    after the tick. *)
Theorem tick_semantics (t : StackTimer.StackTimerTask Method Stop) (w : W) :
  let d := StackTimer.remaining_delay t - 1 in
  (StackTimer.stops holds t w = true ->
     StackTimer.tick invoke holds t w
       = (None, StackTimer.with_remaining 0 t, w)
     /\ StackTimer.reap [StackTimer.with_remaining 0 t] = [])
  /\ (StackTimer.stops holds t w = false -> d <> 0 ->
        StackTimer.tick invoke holds t w
          = (None, StackTimer.with_remaining d t, w))
  /\ (StackTimer.stops holds t w = false -> d = 0 ->
      forall w', invoke (StackTimer.method t) w = (None, w') ->
        (StackTimer.repeat_count t <> 0 ->
           StackTimer.tick invoke holds t w
             = (None,
                StackTimer.mkTask (StackTimer.method t) (StackTimer.delay t)
                  (StackTimer.delay_exp t)
                  (if 0 <=? StackTimer.repeat_count t
                   then StackTimer.repeat_count t - 1
                   else StackTimer.repeat_count t)
                  (StackTimer.stop_condition t)
                  (if StackTimer.delay_exp t
                   then Z.shiftl (StackTimer.delay t)
                          (Z.of_nat (StackTimer.delay_exp_factor t))
                   else StackTimer.delay t)
                  (S (StackTimer.delay_exp_factor t)),
                w'))
        /\ (StackTimer.repeat_count t = 0 ->
              StackTimer.tick invoke holds t w
                = (None, StackTimer.with_remaining 0 t, w')
              /\ StackTimer.reap [StackTimer.with_remaining 0 t] = [])).
Proof.
  intros d. unfold StackTimer.tick.
  change (StackTimer.stops holds
            (StackTimer.with_remaining (StackTimer.remaining_delay t - 1) t) w)
    with (StackTimer.stops holds t w).
  cbn [StackTimer.remaining_delay StackTimer.with_remaining
       StackTimer.method StackTimer.repeat_count].
  fold d. unfold truthy.
  split; [|split].
  - intros ->. split; reflexivity.
  - intros -> Hd. apply Z.eqb_neq in Hd. rewrite Hd. reflexivity.
  - intros -> Hd w' Hw. rewrite Hd, Hw. cbn [Z.eqb negb].
    split.
    + intros Hr. pose proof Hr as Hr'. apply Z.eqb_neq in Hr'.
      rewrite Hr'. cbn [negb]. unfold StackTimer.reschedule.
      cbn [StackTimer.remaining_delay StackTimer.with_remaining
           StackTimer.method StackTimer.repeat_count StackTimer.delay
           StackTimer.delay_exp StackTimer.stop_condition
           StackTimer.delay_exp_factor].
      rewrite shiftl_is_mul.
      replace (StackTimer.repeat_count t >? 0)
        with (0 <=? StackTimer.repeat_count t) by lia.
      reflexivity.
    + intros Hr. rewrite Hr. cbn [Z.eqb negb]. split; reflexivity.
Qed.

End TickFacts.

(** An exponential task with two repeats left, at the tick that brings its
    delay of 1 to zero *)
Lemma tick_semantics_witness :
  StackTimer.tick (fun (_ : unit) (n : nat) => (None, S n))
    (fun (_ : unit) (_ : nat) => false)
    (StackTimer.new_task tt 1 true 2 None) 7%nat
  = (None, StackTimer.mkTask tt 1 true 1 None 1 1, 8%nat).
Proof.
  apply (proj1 (proj2 (proj2
           (tick_semantics (fun (_ : unit) (n : nat) => (None, S n))
              (fun (_ : unit) (_ : nat) => false)
              (StackTimer.new_task tt 1 true 2 None) 7%nat))
           eq_refl eq_refl 8%nat eq_refl)).
  discriminate.
Defined.

(** ** The TCP session: sending a segment *)

Section SendFacts.

Import Tcp.

Lemma send_packet_segment s k seq syn ack fin rst raw :
  exists g,
    phtx_tcp (send_packet s k seq syn ack fin rst raw).2 = phtx_tcp k ++ [g]
    /\ Segment.tcp_seq g = effective_seq s seq
    /\ Segment.tcp_flag_syn g = syn
    /\ Segment.tcp_flag_ack g = ack
    /\ Segment.tcp_flag_fin g = fin
    /\ Segment.tcp_flag_rst g = rst
    /\ Segment.raw_data g = raw.
Proof.
  unfold send_packet. eexists. split.
  - cbn. destruct (state_eqb _ _); cbn; reflexivity.
  - cbn. auto 10.
Qed.

Lemma send_packet_session s k seq syn ack fin rst raw :
  let s' := (send_packet s k seq syn ack fin rst raw).1 in
  local_seq_sent s'
    = effective_seq s seq + len raw + Z.b2z syn + Z.b2z fin
  /\ local_seq_ackd s' = local_seq_ackd s
  /\ tx_buffer_seq_mod s' = tx_buffer_seq_mod s
  /\ tx_buffer s' = tx_buffer s
  /\ rx_buffer s' = rx_buffer s
  /\ state s' = state s
  /\ state_init s' = state_init s
  /\ event_connect s' = event_connect s
  /\ event_rx_buffer s' = event_rx_buffer s
  /\ syn_sent_resend_count s' = syn_sent_resend_count s
  /\ tcp_session_id s' = tcp_session_id s.
Proof.
  unfold send_packet. destruct fin; cbn; repeat split; reflexivity.
Qed.

(** C10. A call of [__send_packet] with [seq=0] sends the segment with the
    sequence number [local_seq_sent], exactly as a call without [seq] does;
    so a SYN that SYN_SENT sends again while [local_seq_ackd] is 0 carries
    [local_seq_sent] and not [local_seq_ackd]. *)
Theorem send_packet_seq_zero s k syn ack fin rst raw :
  send_packet s k (Some 0) syn ack fin rst raw
    = send_packet s k None syn ack fin rst raw
  /\ (exists g,
        phtx_tcp (send_packet s k (Some 0) syn ack fin rst raw).2
          = phtx_tcp k ++ [g]
        /\ Segment.tcp_seq g = local_seq_sent s)
  /\ (state s = SYN_SENT -> state_init s = false ->
      timer_expired (tcp_session_id s +:+ "syn_sent") k = true ->
      local_seq_ackd s = 0 -> 0 < local_seq_sent s ->
      forall c, syn_sent_resend_count s = Some c ->
      c <> PACKET_RESEND_COUNT ->
      exists s' k' g,
        tcp_fsm s k None None true = (None, s', k')
        /\ phtx_tcp k' = phtx_tcp k ++ [g]
        /\ Segment.tcp_flag_syn g = true
        /\ Segment.tcp_seq g = local_seq_sent s
        /\ Segment.tcp_seq g <> local_seq_ackd s
        /\ local_seq_sent s' = local_seq_sent s + 1).
Proof.
  split; [reflexivity|]. split.
  - destruct (send_packet_segment s k (Some 0) syn ack fin rst raw)
      as (g & Hg & Hseq & _).
    exists g. split; [exact Hg|exact Hseq].
  - intros Hst Hinit Hexp Hackd Hsent c Hc Hne.
    unfold tcp_fsm. rewrite Hst. unfold tcp_fsm_syn_sent.
    rewrite Hinit, Hexp, Hc. cbn [andb].
    assert (Hlt : (local_seq_ackd s <? local_seq_sent s) = true)
      by (apply Z.ltb_lt; lia).
    rewrite Hlt.
    apply Nat.eqb_neq in Hne. rewrite Hne.
    destruct (send_packet s k (Some (local_seq_ackd s)) true false false
                false []) as [s1 k1] eqn:E.
    destruct (send_packet_segment s k (Some (local_seq_ackd s)) true false
                false false []) as (g & Hg & Hseq & Hsyn & _).
    pose proof (send_packet_session s k (Some (local_seq_ackd s)) true false
                  false false []) as (Hs & _).
    rewrite E in Hg, Hs. cbn [fst snd] in Hg, Hs.
    rewrite Hackd in Hseq, Hs. cbn in Hseq, Hs.
    eexists _, _, g. split; [reflexivity|].
    cbn. repeat split; try assumption. all: unfold len in Hs; cbn in Hs; lia.
Qed.

(** SYN_SENT with initial sequence number 0, 1000 ticks after the SYN. *)
Lemma send_packet_seq_zero_witness :
  exists s' k' g,
    tcp_fsm
      (set_syn_sent_resend_count (Some 0%nat)
         (set_state_init false
            (change_state SYN_SENT
               (send_packet
                  (new_session (empty_stack 1500 65535 1460 (fun _ => 0))
                     "192.168.9.7" 5000 "192.168.9.102" 7 None).1
                  (empty_stack 1500 65535 1460 (fun _ => 0))
                  None true false false false []).1)))
      (empty_stack 1500 65535 1460 (fun _ => 0)) None None true
      = (None, s', k')
    /\ phtx_tcp k' = [g]
    /\ Segment.tcp_flag_syn g = true
    /\ Segment.tcp_seq g = 1
    /\ Segment.tcp_seq g <> 0
    /\ local_seq_sent s' = 2.
Proof.
  apply (proj2 (proj2
           (send_packet_seq_zero
              (set_syn_sent_resend_count (Some 0%nat)
                 (set_state_init false
                    (change_state SYN_SENT
                       (send_packet
                          (new_session
                             (empty_stack 1500 65535 1460 (fun _ => 0))
                             "192.168.9.7" 5000 "192.168.9.102" 7 None).1
                          (empty_stack 1500 65535 1460 (fun _ => 0))
                          None true false false false []).1)))
              (empty_stack 1500 65535 1460 (fun _ => 0))
              true false false false []))
           eq_refl eq_refl eq_refl eq_refl eq_refl 0%nat eq_refl).
  discriminate.
Defined.

(** C2. In SYN_SENT a packet with the SYN flag alone, [ack] 0 and no data
    is not answered: the condition of the branch for it holds of no packet,
    the session stays in SYN_SENT and no segment is sent. *)
Theorem syn_alone_ignored_in_syn_sent s k p :
  state s = SYN_SENT ->
  Packet.flag_syn p = true -> Packet.flag_ack p = false ->
  Packet.flag_fin p = false -> Packet.flag_rst p = false ->
  Packet.ack p = 0 -> Packet.raw_data p = [] ->
  exists s' k',
    tcp_fsm s k (Some p) None false = (None, s', k')
    /\ state s' = SYN_SENT
    /\ phtx_tcp k' = phtx_tcp k.
Proof.
  intros Hst Hsyn Hack Hfin Hrst _ _.
  unfold tcp_fsm. rewrite Hst. unfold tcp_fsm_syn_sent, when_packet.
  rewrite Hsyn, Hack, Hfin, Hrst.
  destruct (state_init s); cbn; eexists _, _;
    (split; [reflexivity|]); cbn; auto.
Qed.

Lemma syn_alone_ignored_in_syn_sent_witness :
  exists s' k',
    tcp_fsm
      (change_state SYN_SENT
         (send_packet
            (new_session (empty_stack 1500 65535 1460 (fun _ => 1000))
               "192.168.9.7" 5000 "192.168.9.102" 7 None).1
            (empty_stack 1500 65535 1460 (fun _ => 1000))
            None true false false false []).1)
      (empty_stack 1500 65535 1460 (fun _ => 1000))
      (Some (Packet.mk true false false false 500 0 [] 1460 65535
               "192.168.9.7" 5000 "192.168.9.102" 7))
      None false
      = (None, s', k')
    /\ state s' = SYN_SENT
    /\ phtx_tcp k' = [].
Proof.
  apply (syn_alone_ignored_in_syn_sent
           (change_state SYN_SENT
              (send_packet
                 (new_session (empty_stack 1500 65535 1460 (fun _ => 1000))
                    "192.168.9.7" 5000 "192.168.9.102" 7 None).1
                 (empty_stack 1500 65535 1460 (fun _ => 1000))
                 None true false false false []).1)
           (empty_stack 1500 65535 1460 (fun _ => 1000))
           (Packet.mk true false false false 500 0 [] 1460 65535
              "192.168.9.7" 5000 "192.168.9.102" 7));
    reflexivity.
Defined.

End SendFacts.

(** ** The TCP session: [send] and the processing of an acknowledgement *)

Section BufferFacts.

Import Tcp.

(** C4, as the code has it.  In ESTABLISHED and in CLOSE_WAIT [send]
    appends the bytes to [tx_buffer] and returns their number; in every
    other state it changes nothing and returns [None], not 0. *)
Theorem send_appends_or_returns_none (b : list byte) (s : TcpSession) :
  (state s = ESTABLISHED \/ state s = CLOSE_WAIT ->
     send b s = (Some (len b), set_tx_buffer (tx_buffer s ++ b) s))
  /\ (state s <> ESTABLISHED -> state s <> CLOSE_WAIT ->
        send b s = (None, s)).
Proof.
  unfold send. split.
  - intros [-> | ->]; reflexivity.
  - intros H1 H2. destruct (state s); try reflexivity; congruence.
Qed.

Lemma send_appends_or_returns_none_witness :
  send [x41; x42] Example.established.1
    = (Some 2,
       set_tx_buffer (tx_buffer Example.established.1 ++ [x41; x42])
         Example.established.1)
  /\ send [x41; x42] Example.fresh.1 = (None, Example.fresh.1).
Proof.
  split.
  - apply (proj1 (send_appends_or_returns_none [x41; x42]
                    Example.established.1)).
    left. reflexivity.
  - apply (proj2 (send_appends_or_returns_none [x41; x42] Example.fresh.1));
      discriminate.
Defined.

(** C4 as stated fails: [send] on a session that is CLOSED returns [None]
    where the claim has 0. *)
Lemma send_in_closed_does_not_return_zero :
  state Example.fresh.1 = CLOSED
  /\ (send [x41; x42] Example.fresh.1).1 = None
  /\ (send [x41; x42] Example.fresh.1).1 <> Some 0.
Proof.
  split; [reflexivity|]. split; [reflexivity|discriminate].
Qed.

Lemma slice_from_nonneg {A : Type} (l : list A) (i : Z) :
  0 <= i -> slice_from l i = skipn (Z.to_nat i) l.
Proof.
  intros Hi. unfold slice_from, slice_index.
  destruct (i <? 0) eqn:E; [lia|].
  destruct (Nat.le_gt_cases (Z.to_nat i) (length l)) as [Hle|Hgt].
  - rewrite Nat.min_r by exact Hle. reflexivity.
  - rewrite Nat.min_l by lia.
    rewrite !skipn_all2 by lia. reflexivity.
Qed.

Lemma len_slice_from_nonneg {A : Type} (l : list A) (i : Z) :
  0 <= i -> len (slice_from l i) = Z.max 0 (len l - i).
Proof.
  intros Hi. rewrite slice_from_nonneg by exact Hi.
  unfold len. rewrite length_skipn. lia.
Qed.

(** The session after [__process_ack_packet], field by field. *)
Lemma process_ack_packet_session s k p send_ack :
  let s' := (process_ack_packet s k p send_ack).1 in
  local_seq_ackd s' = Z.max (local_seq_ackd s) (Packet.ack p)
  /\ remote_seq_rcvd s'
       = Some (Packet.seq p + len (Packet.raw_data p)
               + Z.b2z (Packet.flag_syn p) + Z.b2z (Packet.flag_fin p))
  /\ rx_buffer s' = rx_buffer s ++ Packet.raw_data p
  /\ tx_buffer s'
       = slice_from (tx_buffer s)
           (Z.max (local_seq_ackd s) (Packet.ack p) - tx_buffer_seq_mod s)
  /\ tx_buffer_seq_mod s' = Z.max (local_seq_ackd s) (Packet.ack p)
  /\ local_seq_sent s' = local_seq_sent s
  /\ state s' = state s
  /\ state_init s' = state_init s
  /\ event_connect s' = event_connect s
  /\ (event_rx_buffer s <= event_rx_buffer s')%nat
  /\ (Packet.raw_data p <> [] -> (1 <= event_rx_buffer s')%nat).
Proof.
  unfold process_ack_packet.
  destruct (Packet.raw_data p) as [|b raw] eqn:Hraw.
  - cbn [length Nat.eqb negb andb]. rewrite andb_false_r.
    cbn. unfold tx_buffer_seq_ackd. cbn. rewrite app_nil_r.
    repeat split; try reflexivity; try lia. congruence.
  - cbn [length Nat.eqb negb andb]. rewrite andb_true_r.
    unfold enqueue_rx_buffer.
    destruct send_ack;
      destruct (event_rx_buffer s) as [|n] eqn:Hev;
      cbn; rewrite ?Hev; cbn; unfold tx_buffer_seq_ackd; cbn;
      unfold effective_seq, len; cbn;
      repeat split; try reflexivity; try lia.
Qed.

Lemma slice_from_neg {A : Type} (l : list A) (i : Z) :
  i < 0 -> slice_from l i = skipn (Z.to_nat (Z.max 0 (len l + i))) l.
Proof.
  intros Hi. unfold slice_from, slice_index, len.
  destruct (i <? 0) eqn:E; [reflexivity|lia].
Qed.

(** C5, as the code has it.  After [__process_ack_packet]:
    [local_seq_ackd] is the larger of its old value and [packet.ack], as
    unbounded integers; [remote_seq_rcvd] is [packet.seq] plus the length of
    the data plus one for each of SYN and FIN; the data is appended to
    [rx_buffer]; [tx_buffer] loses what [del tx_buffer[:offset]] removes,
    for [offset] the new [local_seq_ackd] minus [tx_buffer_seq_mod]: its
    first [offset] bytes when [0 <= offset <= len(tx_buffer)], all of them
    when [offset] is larger, and all but the last [-offset] when [offset] is
    negative.  [tx_buffer_seq_mod] changes by [offset], whatever was
    removed, and so equals the new [local_seq_ackd]; the change is the
    number of bytes removed exactly when [0 <= offset <= len(tx_buffer)], it
    is more than that when [offset] is larger and less, going backwards,
    when [offset] is negative.  Every byte left in [tx_buffer] has a
    sequence number, [tx_buffer_seq_mod] plus its position, of at least
    [local_seq_ackd]. *)
Theorem process_ack_packet_effect s k p send_ack :
  let s' := (process_ack_packet s k p send_ack).1 in
  let offset :=
    Z.max (local_seq_ackd s) (Packet.ack p) - tx_buffer_seq_mod s in
  let drained :=
    if offset <? 0 then Z.max 0 (len (tx_buffer s) + offset)
    else Z.min offset (len (tx_buffer s)) in
  local_seq_ackd s' = Z.max (local_seq_ackd s) (Packet.ack p)
  /\ remote_seq_rcvd s'
       = Some (Packet.seq p + len (Packet.raw_data p)
               + Z.b2z (Packet.flag_syn p) + Z.b2z (Packet.flag_fin p))
  /\ rx_buffer s' = rx_buffer s ++ Packet.raw_data p
  /\ tx_buffer s' = slice_from (tx_buffer s) offset
  /\ tx_buffer s' = skipn (Z.to_nat drained) (tx_buffer s)
  /\ len (tx_buffer s) - len (tx_buffer s') = drained
  /\ tx_buffer_seq_mod s' = tx_buffer_seq_mod s + offset
  /\ tx_buffer_seq_mod s' = local_seq_ackd s'
  /\ (tx_buffer_seq_mod s' - tx_buffer_seq_mod s = drained
        <-> 0 <= offset <= len (tx_buffer s))
  /\ (len (tx_buffer s) < offset ->
        drained < tx_buffer_seq_mod s' - tx_buffer_seq_mod s)
  /\ (offset < 0 ->
        tx_buffer_seq_mod s' < tx_buffer_seq_mod s
        /\ tx_buffer_seq_mod s' - tx_buffer_seq_mod s < drained)
  /\ (forall i : nat, (i < length (tx_buffer s'))%nat ->
        local_seq_ackd s' <= tx_buffer_seq_mod s' + Z.of_nat i).
Proof.
  intros s' offset drained.
  destruct (process_ack_packet_session s k p send_ack)
    as (Hackd & Hrcvd & Hrx & Htx & Hmod & _).
  fold s' in Hackd, Hrcvd, Hrx, Htx, Hmod. fold offset in Htx.
  assert (Hskip : tx_buffer s' = skipn (Z.to_nat drained) (tx_buffer s)).
  { rewrite Htx. unfold drained. destruct (offset <? 0) eqn:E.
    - apply slice_from_neg. lia.
    - rewrite slice_from_nonneg by lia.
      destruct (Z.le_gt_cases offset (len (tx_buffer s))) as [Hle|Hgt].
      + rewrite Z.min_l by exact Hle. reflexivity.
      + rewrite Z.min_r by lia. unfold len in *.
        rewrite Nat2Z.id, !skipn_all2 by lia. reflexivity. }
  assert (Hdr : 0 <= drained <= len (tx_buffer s)).
  { unfold drained, len. destruct (offset <? 0) eqn:E; lia. }
  assert (Hlen : len (tx_buffer s) - len (tx_buffer s') = drained).
  { rewrite Hskip. unfold len in *. rewrite length_skipn. lia. }
  assert (Hadv : tx_buffer_seq_mod s' = tx_buffer_seq_mod s + offset).
  { rewrite Hmod. unfold offset. lia. }
  assert (Hcase : (offset < 0 /\ drained = Z.max 0 (len (tx_buffer s) + offset))
                  \/ (0 <= offset
                      /\ drained = Z.min offset (len (tx_buffer s)))).
  { unfold drained. destruct (offset <? 0) eqn:E; [left|right]; lia. }
  clearbody drained offset.
  assert (Heq : tx_buffer_seq_mod s' = local_seq_ackd s')
    by (rewrite Hmod, Hackd; reflexivity).
  repeat split; try assumption; intros; lia.
Qed.

(** The acknowledgement of three bytes that were sent removes them from
    [tx_buffer] and moves [tx_buffer_seq_mod] on by three. *)
Lemma process_ack_packet_effect_witness :
  tx_buffer_seq_mod
    (process_ack_packet Example.data_sent.1 Example.data_sent.2
       Example.data_ack false).1
  - tx_buffer_seq_mod Example.data_sent.1 = 3
  /\ tx_buffer
       (process_ack_packet Example.data_sent.1 Example.data_sent.2
          Example.data_ack false).1 = [].
Proof.
  split.
  - apply (proj2 (proj1 (proj2 (proj2 (proj2 (proj2 (proj2 (proj2 (proj2
             (proj2
                (process_ack_packet_effect Example.data_sent.1
                   Example.data_sent.2 Example.data_ack false))))))))))).
    vm_compute. split; discriminate.
  - apply (proj1 (proj2 (proj2 (proj2 (proj2
             (process_ack_packet_effect Example.data_sent.1
                Example.data_sent.2 Example.data_ack false)))))).
Defined.

End BufferFacts.

(** ** The TCP session: what holds throughout its life *)

Section LifeFacts.

Import Tcp.

Lemma length_slice_le {A : Type} (l : list A) (i j : Z) :
  0 <= i <= len l -> len (slice l i j) <= len l - i.
Proof.
  intros Hi. unfold slice, len in *.
  rewrite length_firstn, length_skipn. unfold slice_index at 2 3.
  destruct (i <? 0) eqn:E; [lia|]. lia.
Qed.

(** *** [__send_packet] *)

Lemma send_packet_state s k seq syn ack fin rst raw :
  state (send_packet s k seq syn ack fin rst raw).1 = state s.
Proof. apply send_packet_session. Qed.

Lemma send_packet_signal s k seq syn ack fin rst raw :
  signal_ok s -> signal_ok (send_packet s k seq syn ack fin rst raw).1.
Proof.
  pose proof (send_packet_session s k seq syn ack fin rst raw)
    as (_ & _ & _ & _ & Hrx & _ & _ & _ & Hev & _).
  unfold signal_ok. rewrite Hrx, Hev. auto.
Qed.

(** A segment sent at [local_seq_sent], or sent again at [local_seq_ackd] *)
Lemma send_packet_sequence s k seq syn ack fin rst raw :
  seq = None \/ seq = Some (local_seq_ackd s) ->
  sequence_ok s -> sequence_ok (send_packet s k seq syn ack fin rst raw).1.
Proof.
  pose proof (send_packet_session s k seq syn ack fin rst raw)
    as (Hsent & Hackd & Hmod & _).
  unfold sequence_ok. rewrite Hsent, Hackd, Hmod.
  assert (0 <= len raw) by (unfold len; lia).
  assert (0 <= Z.b2z syn) by (destruct syn; cbn; lia).
  assert (0 <= Z.b2z fin) by (destruct fin; cbn; lia).
  intros [-> | ->]; cbn; [lia|].
  unfold truthy. destruct (local_seq_ackd s =? 0) eqn:E; cbn; lia.
Qed.

(** A segment without SYN and FIN whose data lies in [tx_buffer] behind
    what was sent *)
Lemma send_packet_window s k ack rst raw :
  len raw <= len (tx_buffer s) - tx_buffer_seq_sent s ->
  window_ok s -> window_ok (send_packet s k None false ack false rst raw).1.
Proof.
  pose proof (send_packet_session s k None false ack false rst raw)
    as (Hsent & Hackd & Hmod & Htx & _).
  unfold window_ok, tx_buffer_seq_sent. rewrite Hsent, Hackd, Hmod, Htx.
  cbn. lia.
Qed.

Lemma send_packet_ok s k seq syn ack fin rst raw :
  seq = None \/ seq = Some (local_seq_ackd s) ->
  ~ transfers (state s) ->
  session_ok s -> session_ok (send_packet s k seq syn ack fin rst raw).1.
Proof.
  intros Hseq Hst (H1 & H2 & _). split; [|split].
  - apply send_packet_sequence; assumption.
  - apply send_packet_signal; assumption.
  - rewrite send_packet_state. intros H. contradiction.
Qed.

Lemma send_packet_bare_ok s k ack rst :
  session_ok s -> session_ok (send_packet s k None false ack false rst []).1.
Proof.
  intros (H1 & H2 & H3). split; [|split].
  - apply send_packet_sequence; auto.
  - apply send_packet_signal; assumption.
  - rewrite send_packet_state. intros H.
    specialize (H3 H). apply send_packet_window; [|exact H3].
    destruct H1, H3. unfold tx_buffer_seq_sent, len in *. cbn [length]. lia.
Qed.

(** *** [__process_ack_packet] *)

Lemma process_ack_packet_state s k p send_ack :
  state (process_ack_packet s k p send_ack).1 = state s.
Proof. apply process_ack_packet_session. Qed.

Lemma process_ack_packet_signal s k p send_ack :
  signal_ok s -> signal_ok (process_ack_packet s k p send_ack).1.
Proof.
  pose proof (process_ack_packet_session s k p send_ack)
    as (_ & _ & Hrx & _ & _ & _ & _ & _ & _ & Hle & Hdata).
  unfold signal_ok. rewrite Hrx. intros Hs Hne.
  destruct (Packet.raw_data p) as [|b raw] eqn:E.
  - rewrite app_nil_r in Hne. specialize (Hs Hne). lia.
  - apply Hdata. discriminate.
Qed.

Lemma process_ack_packet_sequence s k p send_ack :
  Packet.ack p <= local_seq_sent s ->
  sequence_ok s -> sequence_ok (process_ack_packet s k p send_ack).1.
Proof.
  pose proof (process_ack_packet_session s k p send_ack)
    as (Hackd & _ & _ & _ & Hmod & Hsent & _).
  unfold sequence_ok. rewrite Hackd, Hmod, Hsent. lia.
Qed.

(** The acknowledgement of all that was sent puts the window in order. *)
Lemma process_ack_packet_opens s k p send_ack :
  Packet.ack p = local_seq_sent s ->
  sequence_ok s -> window_ok (process_ack_packet s k p send_ack).1.
Proof.
  pose proof (process_ack_packet_session s k p send_ack)
    as (Hackd & _ & _ & _ & Hmod & Hsent & _).
  unfold sequence_ok, window_ok, tx_buffer_seq_sent.
  rewrite Hackd, Hmod, Hsent. unfold len. lia.
Qed.

Lemma process_ack_packet_window s k p send_ack :
  Packet.ack p <= local_seq_sent s ->
  sequence_ok s -> window_ok s ->
  window_ok (process_ack_packet s k p send_ack).1.
Proof.
  pose proof (process_ack_packet_session s k p send_ack)
    as (Hackd & _ & _ & Htx & Hmod & Hsent & _).
  unfold sequence_ok, window_ok, tx_buffer_seq_sent.
  rewrite Hackd, Hmod, Hsent, Htx. intros Hp [H1 H2] [H3 H4].
  rewrite len_slice_from_nonneg by lia. lia.
Qed.

Lemma process_ack_packet_ok s k p send_ack :
  Packet.ack p <= local_seq_sent s ->
  session_ok s -> session_ok (process_ack_packet s k p send_ack).1.
Proof.
  intros Hp (H1 & H2 & H3). split; [|split].
  - apply process_ack_packet_sequence; assumption.
  - apply process_ack_packet_signal; assumption.
  - rewrite process_ack_packet_state. intros H.
    apply process_ack_packet_window; auto.
Qed.

End LifeFacts.

Section HandlerFacts.

Import Tcp.

(** A session that differs in other attributes only, or has its semaphore
    posted once more *)
Lemma session_ok_same s s' :
  local_seq_sent s' = local_seq_sent s ->
  local_seq_ackd s' = local_seq_ackd s ->
  tx_buffer_seq_mod s' = tx_buffer_seq_mod s ->
  tx_buffer s' = tx_buffer s ->
  rx_buffer s' = rx_buffer s ->
  (event_rx_buffer s <= event_rx_buffer s')%nat ->
  state s' = state s ->
  session_ok s -> session_ok s'.
Proof.
  unfold session_ok, sequence_ok, signal_ok, window_ok, tx_buffer_seq_sent.
  intros -> -> -> -> -> Hev ->. intros (H1 & H2 & H3).
  split; [exact H1|]. split; [|exact H3].
  intros H. specialize (H2 H). lia.
Qed.

Lemma change_state_ok st s :
  (transfers st -> window_ok s) ->
  session_ok s -> session_ok (change_state st s).
Proof.
  intros Hw (H1 & H2 & _). split; [exact H1|]. split; [exact H2|].
  cbn. exact Hw.
Qed.

Lemma clear_state_init_ok s : session_ok s -> session_ok (clear_state_init s).
Proof.
  unfold clear_state_init. destruct (state_init s); [|auto].
  apply session_ok_same; reflexivity.
Qed.

Lemma clear_state_init_state s : state (clear_state_init s) = state s.
Proof. unfold clear_state_init. destruct (state_init s); reflexivity. Qed.

Lemma clear_state_init_sent s :
  local_seq_sent (clear_state_init s) = local_seq_sent s.
Proof. unfold clear_state_init. destruct (state_init s); reflexivity. Qed.

Lemma when_packet_Some packet cond p :
  when_packet packet cond = Some p -> cond p = true.
Proof.
  unfold when_packet. destruct packet as [q|]; [|discriminate].
  destruct (cond q) eqn:E; [|discriminate]. congruence.
Qed.

Lemma not_transfers st :
  st <> ESTABLISHED -> st <> CLOSE_WAIT -> ~ transfers st.
Proof. intros H1 H2 [H|H]; contradiction. Qed.

(** Name the session that the first call of [send_packet], or of
    [process_ack_packet], in the goal leaves. *)
Ltac split_send :=
  match goal with
  | |- context [send_packet ?s ?k ?q ?a ?b ?c ?d ?r] =>
      let E := fresh "E" in
      destruct (send_packet s k q a b c d r) as [? ?] eqn:E;
      apply (f_equal fst) in E; cbn [fst] in E; subst
  end.

Ltac split_ack :=
  match goal with
  | |- context [process_ack_packet ?s ?k ?p ?a] =>
      let E := fresh "E" in
      destruct (process_ack_packet s k p a) as [? ?] eqn:E;
      apply (f_equal fst) in E; cbn [fst] in E; subst
  end.

Lemma andb_true_split a b : a && b = true -> a = true /\ b = true.
Proof. destruct a, b; auto. Qed.

(** Split on the outermost test of a packet in the goal. *)
Ltac case_packet W :=
  match goal with
  | |- context [match when_packet ?q ?c with _ => _ end] =>
      destruct (when_packet q c) as [p|] eqn:W
  end.

Ltac flags W :=
  apply when_packet_Some in W;
  repeat (let H := fresh "F" in apply andb_true_split in W as [W H]).

Ltac no_transfer :=
  let H := fresh in
  intros [H|H]; discriminate H.

(** A session that agrees with [t] on the attributes [session_ok] reads *)
Ltac same_as t :=
  apply (session_ok_same t);
  [ cbn; rewrite ?clear_state_init_state; try reflexivity; try lia .. | ].

Lemma tcp_fsm_closed_ok s k packet syscall timer :
  state s = CLOSED -> session_ok s ->
  session_ok (tcp_fsm_closed s k packet syscall timer).1.2.
Proof.
  intros Hst Hok. unfold tcp_fsm_closed.
  assert (Hok0 := clear_state_init_ok s Hok).
  assert (Hst0 : state (clear_state_init s) = CLOSED)
    by (rewrite clear_state_init_state; exact Hst).
  destruct syscall as [[]|]; cbn [syscall_is]; try split_send; cbn [fst snd].
  - apply change_state_ok; [no_transfer|exact Hok0].
  - apply change_state_ok; [no_transfer|].
    apply send_packet_ok; auto. rewrite Hst0. no_transfer.
  - exact Hok0.
  - exact Hok0.
Qed.

Lemma tcp_fsm_listen_ok s k packet syscall timer :
  state s = LISTEN -> session_ok s ->
  session_ok (tcp_fsm_listen s k packet syscall timer).1.2.
Proof.
  intros Hst Hok. unfold tcp_fsm_listen.
  assert (Hok0 := clear_state_init_ok s Hok).
  assert (Hst0 : state (clear_state_init s) = LISTEN)
    by (rewrite clear_state_init_state; exact Hst).
  case_packet W.
  - destruct (new_session _ _ _ _ _ _) as [fresh k1].
    destruct (tcp_fsm_closed fresh k1 None (Some SYS_LISTEN) false)
      as [[e listening] k2].
    destruct (tcp_sessions _ !! _); [|exact Hok0].
    split_send. cbn [fst snd].
    apply change_state_ok; [no_transfer|].
    apply send_packet_ok; [auto| |].
    + cbn. rewrite Hst0. no_transfer.
    + same_as (clear_state_init s). exact Hok0.
  - destruct (syscall_is syscall SYS_CLOSE); cbn [fst snd].
    + apply change_state_ok; [no_transfer|exact Hok0].
    + exact Hok0.
Qed.

Lemma window_ok_same s s' :
  local_seq_sent s' = local_seq_sent s ->
  local_seq_ackd s' = local_seq_ackd s ->
  tx_buffer_seq_mod s' = tx_buffer_seq_mod s ->
  tx_buffer s' = tx_buffer s ->
  window_ok s -> window_ok s'.
Proof.
  unfold window_ok, tx_buffer_seq_sent. intros -> -> -> ->. auto.
Qed.

Lemma send_packet_bare_window s k ack rst :
  window_ok s -> window_ok (send_packet s k None false ack false rst []).1.
Proof.
  intros H. apply send_packet_window; [|exact H].
  destruct H as [_ H]. unfold len in *. cbn [length]. lia.
Qed.


Lemma tcp_fsm_syn_sent_body_ok s k packet syscall timer :
  state_init s = false ->
  state s = SYN_SENT -> session_ok s ->
  session_ok (tcp_fsm_syn_sent s k packet syscall timer).1.2.
Proof.
  intros Hi Hst Hok. unfold tcp_fsm_syn_sent. rewrite Hi.
  destruct (timer && _ && _).
  { destruct (syn_sent_resend_count s) as [c|]; [|exact Hok].
    destruct (Nat.eqb c PACKET_RESEND_COUNT).
    - apply change_state_ok; [no_transfer|exact Hok].
    - split_send. cbn [fst snd].
      same_as (send_packet s k (Some (local_seq_ackd s)) true false false
                 false []).1.
      apply send_packet_ok; [auto| |exact Hok].
      rewrite Hst. no_transfer. }
  case_packet W1.
  { flags W1. apply Z.eqb_eq in F0.
    split_ack. split_send. cbn [fst snd].
    assert (Hpa : session_ok (process_ack_packet s k p false).1)
      by (apply process_ack_packet_ok; [lia|exact Hok]).
    assert (Hwin : window_ok (process_ack_packet s k p false).1)
      by (apply process_ack_packet_opens; [exact F0|apply Hok]).
    apply change_state_ok.
    - intros _. apply send_packet_bare_window.
      apply (window_ok_same (process_ack_packet s k p false).1);
        try reflexivity. exact Hwin.
    - apply send_packet_bare_ok.
      same_as (process_ack_packet s k p false).1. exact Hpa. }
  case_packet W2.
  { split_send. cbn [fst snd].
    apply change_state_ok; [no_transfer|].
    apply send_packet_ok; [auto| |exact Hok].
    rewrite Hst. no_transfer. }
  case_packet W3.
  { cbn [fst snd]. same_as (change_state CLOSED s).
    apply change_state_ok; [no_transfer|exact Hok]. }
  destruct (syscall_is syscall SYS_CLOSE); cbn [fst snd].
  - apply change_state_ok; [no_transfer|exact Hok].
  - exact Hok.
Qed.

Lemma tcp_fsm_syn_sent_ok s k packet syscall timer :
  state s = SYN_SENT -> session_ok s ->
  session_ok (tcp_fsm_syn_sent s k packet syscall timer).1.2.
Proof.
  intros Hst Hok. destruct (state_init s) eqn:Hi.
  - unfold tcp_fsm_syn_sent at 1. rewrite Hi.
    change (session_ok
              (tcp_fsm_syn_sent
                 (set_syn_sent_resend_count (Some 0%nat)
                    (set_state_init false s))
                 (register_timer (tcp_session_id s +:+ "syn_sent")
                    PACKET_RESEND_DELAY k)
                 packet syscall timer).1.2).
    apply tcp_fsm_syn_sent_body_ok; [reflexivity|exact Hst|].
    same_as s. exact Hok.
  - apply tcp_fsm_syn_sent_body_ok; assumption.
Qed.

Lemma tcp_fsm_syn_rcvd_body_ok s k packet syscall timer :
  state_init s = false ->
  state s = SYN_RCVD -> session_ok s ->
  session_ok (tcp_fsm_syn_rcvd s k packet syscall timer).1.2.
Proof.
  intros Hi Hst Hok. unfold tcp_fsm_syn_rcvd. rewrite Hi.
  destruct (timer && _ && _).
  { destruct (syn_rcvd_resend_count s) as [c|]; [|exact Hok].
    destruct (Nat.eqb c PACKET_RESEND_COUNT).
    - apply change_state_ok; [no_transfer|exact Hok].
    - split_send. cbn [fst snd].
      same_as (send_packet s k (Some (local_seq_ackd s)) true true false
                 false []).1.
      apply send_packet_ok; [auto| |exact Hok].
      rewrite Hst. no_transfer. }
  case_packet W1.
  { flags W1. apply Z.eqb_eq in F0.
    split_ack. cbn [fst snd].
    apply change_state_ok.
    - intros _. apply process_ack_packet_opens; [exact F0|apply Hok].
    - apply process_ack_packet_ok; [lia|exact Hok]. }
  destruct (syscall_is syscall SYS_CLOSE).
  - split_send. cbn [fst snd].
    apply change_state_ok; [no_transfer|].
    apply send_packet_ok; [auto| |exact Hok].
    rewrite Hst. no_transfer.
  - exact Hok.
Qed.

Lemma tcp_fsm_syn_rcvd_ok s k packet syscall timer :
  state s = SYN_RCVD -> session_ok s ->
  session_ok (tcp_fsm_syn_rcvd s k packet syscall timer).1.2.
Proof.
  intros Hst Hok. destruct (state_init s) eqn:Hi.
  - unfold tcp_fsm_syn_rcvd at 1. rewrite Hi.
    change (session_ok
              (tcp_fsm_syn_rcvd
                 (set_syn_rcvd_resend_count (Some 0%nat)
                    (set_state_init false s))
                 (register_timer (tcp_session_id s +:+ "syn_rcvd")
                    PACKET_RESEND_DELAY k)
                 packet syscall timer).1.2).
    apply tcp_fsm_syn_rcvd_body_ok; [reflexivity|exact Hst|].
    same_as s. exact Hok.
  - apply tcp_fsm_syn_rcvd_body_ok; assumption.
Qed.

Lemma change_state_plain st s :
  ~ transfers st -> sequence_ok s -> signal_ok s ->
  session_ok (change_state st s).
Proof.
  intros Hn H1 H2. split; [exact H1|]. split; [exact H2|].
  cbn. intros H. contradiction.
Qed.

(** Sending the FIN and leaving for a state that transfers nothing *)
Lemma send_fin_ok st s k :
  ~ transfers st -> session_ok s ->
  session_ok
    (change_state st (send_packet s k None false true true false []).1).
Proof.
  intros Hn (H1 & H2 & _). apply change_state_plain; [exact Hn| |].
  - apply send_packet_sequence; auto.
  - apply send_packet_signal; exact H2.
Qed.

(** *** The timer event of ESTABLISHED and CLOSE_WAIT *)

Lemma send_data_state s k : state (send_data s k).1.2 = state s.
Proof.
  unfold send_data. destruct (truthy _); [|reflexivity].
  destruct (remote_win s); [|reflexivity].
  destruct (_ >? 0); [|reflexivity].
  destruct (remote_mss s); [|reflexivity].
  split_send. cbn [fst snd]. apply send_packet_state.
Qed.

Lemma send_data_ok s k :
  transfers (state s) -> session_ok s -> session_ok (send_data s k).1.2.
Proof.
  intros Ht Hok. unfold send_data. destruct (truthy _); [|exact Hok].
  destruct (remote_win s) as [rwin|]; [|exact Hok].
  destruct (_ >? 0); [|exact Hok].
  destruct (remote_mss s) as [rmss|]; [|exact Hok].
  split_send. cbn [fst snd].
  destruct Hok as (H1 & H2 & H3). specialize (H3 Ht).
  split; [|split].
  - apply send_packet_sequence; auto.
  - apply send_packet_signal; exact H2.
  - intros _. apply send_packet_window; [|exact H3].
    destruct H1 as [H1 _]. destruct H3 as [H3 H4].
    unfold tx_buffer_seq_sent in *.
    apply length_slice_le. lia.
Qed.

Lemma delayed_ack_state s k : state (delayed_ack s k).1.2 = state s.
Proof.
  unfold delayed_ack. destruct (timer_expired _ _); [|reflexivity].
  destruct (remote_seq_rcvd s); [|reflexivity].
  destruct (remote_seq_ackd s); [|reflexivity].
  destruct (_ >? _); [|reflexivity].
  split_send. cbn [fst snd]. apply send_packet_state.
Qed.

Lemma delayed_ack_ok s k :
  session_ok s -> session_ok (delayed_ack s k).1.2.
Proof.
  intros Hok. unfold delayed_ack. destruct (timer_expired _ _); [|exact Hok].
  destruct (remote_seq_rcvd s); [|exact Hok].
  destruct (remote_seq_ackd s); [|exact Hok].
  destruct (_ >? _); [|exact Hok].
  split_send. cbn [fst snd]. apply send_packet_bare_ok. exact Hok.
Qed.

Lemma on_timer_ok s k :
  transfers (state s) -> session_ok s -> session_ok (on_timer s k).1.2.
Proof.
  intros Ht Hok. unfold on_timer.
  pose proof (send_data_ok s k Ht Hok) as H.
  destruct (send_data s k) as [[[e|] s1] k1]; cbn [fst snd] in *.
  - exact H.
  - apply delayed_ack_ok. exact H.
Qed.

Lemma on_timer_state s k : state (on_timer s k).1.2 = state s.
Proof.
  unfold on_timer. pose proof (send_data_state s k) as H.
  destruct (send_data s k) as [[[e|] s1] k1]; cbn [fst snd] in *.
  - exact H.
  - rewrite delayed_ack_state. exact H.
Qed.

(** *** The handlers of the states after the handshake *)

Lemma sane_ack s p : sane s p = true -> Packet.ack p <= local_seq_sent s.
Proof.
  unfold sane. intros H. apply andb_true_split in H as [_ H]. lia.
Qed.

Lemma tcp_fsm_established_body_ok s k packet syscall timer :
  state_init s = false ->
  state s = ESTABLISHED -> session_ok s ->
  session_ok (tcp_fsm_established s k packet syscall timer).1.2.
Proof.
  intros Hi Hst Hok. unfold tcp_fsm_established. rewrite Hi.
  cbv beta iota. unfold returned at 1. cbv beta iota.
  assert (Ht : transfers (state s)) by (rewrite Hst; left; reflexivity).
  destruct timer; [apply on_timer_ok; assumption|].
  case_packet W1.
  { flags W1. apply sane_ack in F. split_ack. cbn [fst snd].
    apply process_ack_packet_ok; assumption. }
  case_packet W2.
  { flags W2. apply sane_ack in F. split_ack. cbn [fst snd].
    assert (Hpa : session_ok (process_ack_packet s k p true).1)
      by (apply process_ack_packet_ok; assumption).
    apply change_state_ok.
    - intros _.
      apply (window_ok_same (process_ack_packet s k p true).1);
        try reflexivity.
      apply Hpa. rewrite process_ack_packet_state. exact Ht.
    - same_as (process_ack_packet s k p true).1. exact Hpa. }
  destruct (syscall_is syscall SYS_CLOSE).
  - split_send. cbn [fst snd]. apply send_fin_ok; [no_transfer|exact Hok].
  - exact Hok.
Qed.

Lemma tcp_fsm_established_ok s k packet syscall timer :
  state s = ESTABLISHED -> session_ok s ->
  session_ok (tcp_fsm_established s k packet syscall timer).1.2.
Proof.
  intros Hst Hok. destruct (state_init s) eqn:Hi.
  - unfold tcp_fsm_established at 1. rewrite Hi.
    cbn [socket set_state_init]. destruct (socket s) as [sock|].
    + change (session_ok
                (tcp_fsm_established
                   (release_connect (set_state_init false s))
                   (release_established sock k) packet syscall timer).1.2).
      apply tcp_fsm_established_body_ok; [reflexivity|exact Hst|].
      same_as s. exact Hok.
    + cbn [fst snd raised]. same_as s. exact Hok.
  - apply tcp_fsm_established_body_ok; assumption.
Qed.

Lemma tcp_fsm_fin_wait_1_ok s k packet syscall timer :
  state s = FIN_WAIT_1 -> session_ok s ->
  session_ok (tcp_fsm_fin_wait_1 s k packet syscall timer).1.2.
Proof.
  intros Hst Hok. unfold tcp_fsm_fin_wait_1.
  assert (Hok0 := clear_state_init_ok s Hok).
  set (s0 := clear_state_init s) in *.
  case_packet W1.
  { destruct (sane s0 p) eqn:S; [|exact Hok0].
    apply sane_ack in S. split_ack.
    assert (Hpa : session_ok (process_ack_packet s0 k p true).1)
      by (apply process_ack_packet_ok; assumption).
    destruct (local_seq_fin _); [|exact Hpa].
    destruct (_ >=? _); cbn [fst snd]; [|exact Hpa].
    apply change_state_ok; [no_transfer|exact Hpa]. }
  case_packet W2.
  { destruct (sane s0 p) eqn:S; [|exact Hok0].
    apply sane_ack in S. split_ack. split_send.
    assert (Hpa :
      session_ok
        (send_packet (process_ack_packet s0 k p false).1 s1 None false true
           false false []).1)
      by (apply send_packet_bare_ok, process_ack_packet_ok; assumption).
    destruct (local_seq_fin _); [|exact Hpa].
    destruct (_ >=? _); cbn [fst snd];
      (apply change_state_ok; [no_transfer|exact Hpa]). }
  exact Hok0.
Qed.

Lemma tcp_fsm_fin_wait_2_ok s k packet syscall timer :
  state s = FIN_WAIT_2 -> session_ok s ->
  session_ok (tcp_fsm_fin_wait_2 s k packet syscall timer).1.2.
Proof.
  intros Hst Hok. unfold tcp_fsm_fin_wait_2.
  assert (Hok0 := clear_state_init_ok s Hok).
  set (s0 := clear_state_init s) in *.
  case_packet W1.
  { flags W1. apply sane_ack in F. split_ack. cbn [fst snd].
    apply process_ack_packet_ok; assumption. }
  case_packet W2.
  { flags W2. apply sane_ack in F. split_ack. split_send. cbn [fst snd].
    apply change_state_ok; [no_transfer|].
    apply send_packet_bare_ok, process_ack_packet_ok; assumption. }
  exact Hok0.
Qed.

Lemma tcp_fsm_closing_ok s k packet syscall timer :
  state s = CLOSING -> session_ok s ->
  session_ok (tcp_fsm_closing s k packet syscall timer).1.2.
Proof.
  intros Hst Hok. unfold tcp_fsm_closing.
  assert (Hok0 := clear_state_init_ok s Hok).
  set (s0 := clear_state_init s) in *.
  case_packet W1; [|exact Hok0].
  flags W1. apply Z.eqb_eq in F0. cbn [fst snd].
  destruct Hok0 as ([H1 H2] & H3 & _).
  apply change_state_plain; [no_transfer| |exact H3].
  split; cbn; lia.
Qed.

Lemma tcp_fsm_close_wait_ok s k packet syscall timer :
  state s = CLOSE_WAIT -> session_ok s ->
  session_ok (tcp_fsm_close_wait s k packet syscall timer).1.2.
Proof.
  intros Hst Hok. unfold tcp_fsm_close_wait.
  assert (Hok0 := clear_state_init_ok s Hok).
  assert (Ht : transfers (state (clear_state_init s)))
    by (rewrite clear_state_init_state, Hst; right; reflexivity).
  set (s0 := clear_state_init s) in *.
  destruct timer; [apply on_timer_ok; assumption|].
  case_packet W1.
  { flags W1. apply sane_ack in F0. split_ack. cbn [fst snd].
    apply process_ack_packet_ok; assumption. }
  destruct (syscall_is syscall SYS_CLOSE).
  { split_send. cbn [fst snd]. apply send_fin_ok; [no_transfer|exact Hok0]. }
  case_packet W2; [|exact Hok0].
  destruct (_ && _); cbn [fst snd]; [|exact Hok0].
  apply change_state_ok; [no_transfer|exact Hok0].
Qed.

Lemma tcp_fsm_last_ack_ok s k packet syscall timer :
  state s = LAST_ACK -> session_ok s ->
  session_ok (tcp_fsm_last_ack s k packet syscall timer).1.2.
Proof.
  intros Hst Hok. unfold tcp_fsm_last_ack.
  assert (Hok0 := clear_state_init_ok s Hok).
  set (s0 := clear_state_init s) in *.
  case_packet W1.
  { destruct (_ && _); cbn [fst snd]; [|exact Hok0].
    apply change_state_ok; [no_transfer|exact Hok0]. }
  case_packet W2; [|exact Hok0].
  destruct (_ && _); cbn [fst snd]; [|exact Hok0].
  apply change_state_ok; [no_transfer|exact Hok0].
Qed.

Lemma tcp_fsm_time_wait_ok s k packet syscall timer :
  state s = TIME_WAIT -> session_ok s ->
  session_ok (tcp_fsm_time_wait s k packet syscall timer).1.2.
Proof.
  intros Hst Hok. unfold tcp_fsm_time_wait.
  destruct (state_init s); cbv beta iota.
  - destruct (timer && _); cbn [fst snd].
    + apply change_state_ok; [no_transfer|]. same_as s. exact Hok.
    + same_as s. exact Hok.
  - destruct (timer && _); cbn [fst snd].
    + apply change_state_ok; [no_transfer|exact Hok].
    + exact Hok.
Qed.

(** Whatever [tcp_fsm] is called with, it keeps the session in order. *)
Lemma tcp_fsm_ok s k packet syscall timer :
  session_ok s -> session_ok (tcp_fsm s k packet syscall timer).1.2.
Proof.
  intros Hok. unfold tcp_fsm. destruct (state s) eqn:Hst.
  - apply tcp_fsm_closed_ok; assumption.
  - apply tcp_fsm_listen_ok; assumption.
  - apply tcp_fsm_syn_sent_ok; assumption.
  - apply tcp_fsm_syn_rcvd_ok; assumption.
  - apply tcp_fsm_established_ok; assumption.
  - apply tcp_fsm_fin_wait_1_ok; assumption.
  - apply tcp_fsm_fin_wait_2_ok; assumption.
  - apply tcp_fsm_closing_ok; assumption.
  - apply tcp_fsm_close_wait_ok; assumption.
  - apply tcp_fsm_last_ack_ok; assumption.
  - apply tcp_fsm_time_wait_ok; assumption.
Qed.

End HandlerFacts.

(** ** The TCP session: every session that exists is in order *)

Section AliveFacts.

Import Tcp.

Lemma new_session_ok k lip lport rip rport sock :
  session_ok (new_session k lip lport rip rport sock).1.
Proof.
  split; [|split].
  - split; cbn; lia.
  - intros H. cbn in H. contradiction.
  - intros [H|H]; discriminate H.
Qed.

Lemma send_ok b s : session_ok s -> session_ok (send b s).2.
Proof.
  intros Hok. unfold send.
  destruct (state_eqb (state s) ESTABLISHED || state_eqb (state s) CLOSE_WAIT);
    cbn [snd]; [|exact Hok].
  destruct Hok as (H1 & H2 & H3). split; [exact H1|]. split; [exact H2|].
  cbn. intros Ht. specialize (H3 Ht). destruct H3 as [H3 H4].
  split; [exact H3|]. unfold tx_buffer_seq_sent, len in *. cbn.
  rewrite length_app. lia.
Qed.

Lemma slice_from_nil_iff {A : Type} (l : list A) (i : Z) :
  truthy (len (slice_from l i)) = false -> slice_from l i = [].
Proof.
  unfold truthy, len. intros H.
  destruct (slice_from l i); [reflexivity|]. cbn [length] in H.
  apply negb_false_iff, Z.eqb_eq in H. lia.
Qed.

Lemma receive_ok bc s r s' :
  receive bc s = Some (r, s') -> session_ok s -> session_ok s'.
Proof.
  unfold receive. destruct (event_rx_buffer s) as [|n] eqn:Hev;
    [discriminate|].
  cbn [rx_buffer state set_event_rx_buffer].
  destruct (Nat.eqb (length (rx_buffer s)) 0 && _) eqn:E.
  - intros [= <- <-] (H1 & H2 & H3). split; [exact H1|]. split; [|exact H3].
    apply andb_true_iff in E as [E _]. apply Nat.eqb_eq in E.
    intros Hne. cbn in Hne. destruct (rx_buffer s); [contradiction|].
    discriminate E.
  - set (count := match bc with
                  | Some c => Z.min c (len (rx_buffer s))
                  | None => len (rx_buffer s)
                  end).
    intros [= <- <-] (H1 & H2 & H3). split; [|split].
    + destruct (truthy _ || _); exact H1.
    + destruct (truthy _ || _) eqn:T.
      * intros _. cbn. lia.
      * apply orb_false_iff in T as [T _]. cbn in T.
        apply slice_from_nil_iff in T. intros Hne. cbn in Hne.
        contradiction.
    + destruct (truthy _ || _); exact H3.
Qed.

Lemma connect_return_ok s r s' :
  connect_return s = Some (r, s') -> session_ok s -> session_ok s'.
Proof.
  unfold connect_return. destruct (event_connect s); [discriminate|].
  intros [= <- <-]. apply session_ok_same; reflexivity.
Qed.

Lemma happen_ok e s k : session_ok s -> session_ok (happen e s k).1.
Proof.
  intros Hok. destruct e as [packet syscall timer|raw|bc|]; cbn [happen].
  - pose proof (tcp_fsm_ok s k packet syscall timer Hok) as H.
    destruct (tcp_fsm s k packet syscall timer) as [[e s'] k']. exact H.
  - apply send_ok. exact Hok.
  - destruct (receive bc s) as [[r s']|] eqn:E; [|exact Hok].
    exact (receive_ok bc s r s' E Hok).
  - destruct (connect_return s) as [[r s']|] eqn:E; [|exact Hok].
    exact (connect_return_ok s r s' E Hok).
Qed.

Lemma alive_ok s : alive s -> session_ok s.
Proof.
  induction 1 as [k lip lport rip rport sock|s k e _ IH].
  - apply new_session_ok.
  - apply happen_ok. exact IH.
Qed.

Lemma happen_all_alive es s k : alive s -> alive (happen_all es s k).1.
Proof.
  revert s k. induction es as [|e es IH]; intros s k Ha; [exact Ha|].
  cbn [happen_all]. pose proof (alive_next s k e Ha) as H.
  destruct (happen e s k) as [s' k']. apply IH. exact H.
Qed.

(** C6, as the code has it.  At every point of the life of a session,
    under the plain order of the integers, [local_seq_ackd] is at most
    [local_seq_sent] and [tx_buffer_seq_mod] is at most
    [local_seq_ackd + 1]; and while the session is in ESTABLISHED or
    CLOSE_WAIT, [tx_buffer_seq_mod <= local_seq_ackd <= local_seq_sent]
    and [local_seq_sent - tx_buffer_seq_mod] is at most the length of
    [tx_buffer]. *)
Theorem alive_sequence_numbers s :
  alive s ->
  local_seq_ackd s <= local_seq_sent s
  /\ tx_buffer_seq_mod s <= local_seq_ackd s + 1
  /\ (state s = ESTABLISHED \/ state s = CLOSE_WAIT ->
        tx_buffer_seq_mod s <= local_seq_ackd s
        /\ local_seq_ackd s <= local_seq_sent s
        /\ tx_buffer_seq_sent s <= len (tx_buffer s)).
Proof.
  intros Ha. destruct (alive_ok s Ha) as ([H1 H2] & _ & H3).
  split; [exact H1|]. split; [exact H2|].
  intros Ht. destruct (H3 Ht) as [H4 H5]. auto.
Qed.

Lemma established_alive : alive Example.established.1.
Proof.
  unfold Example.established. apply happen_all_alive.
  unfold Example.connecting. apply alive_next.
  unfold Example.fresh. apply alive_new.
Qed.

Lemma alive_sequence_numbers_witness :
  local_seq_ackd Example.established.1 <= local_seq_sent Example.established.1
  /\ tx_buffer_seq_mod Example.established.1
       <= local_seq_ackd Example.established.1 + 1
  /\ (state Example.established.1 = ESTABLISHED
      \/ state Example.established.1 = CLOSE_WAIT ->
        tx_buffer_seq_mod Example.established.1
          <= local_seq_ackd Example.established.1
        /\ local_seq_ackd Example.established.1
             <= local_seq_sent Example.established.1
        /\ tx_buffer_seq_sent Example.established.1
             <= len (tx_buffer Example.established.1)).
Proof.
  apply (alive_sequence_numbers Example.established.1).
  unfold Example.established. apply happen_all_alive.
  unfold Example.connecting. apply alive_next.
  unfold Example.fresh. apply alive_new.
Defined.

(** C6 as stated fails right after construction: [tx_buffer_seq_mod] is
    [local_seq_init + 1], one more than [local_seq_ackd], under the plain
    order and under the order modulo 2^32 alike; and it fails for
    [offset_sent] once the FIN is sent, which counts as sent but is no byte
    of [tx_buffer]. *)
Lemma fresh_session_mod_exceeds_ackd :
  alive Example.fresh.1
  /\ tx_buffer_seq_mod Example.fresh.1 = 1001
  /\ local_seq_ackd Example.fresh.1 = 1000
  /\ ~ tx_buffer_seq_mod Example.fresh.1 <= local_seq_ackd Example.fresh.1
  /\ ~ wrap_le (tx_buffer_seq_mod Example.fresh.1)
         (local_seq_ackd Example.fresh.1)
  /\ alive Example.fin_sent.1
  /\ ~ tx_buffer_seq_sent Example.fin_sent.1
         <= len (tx_buffer Example.fin_sent.1).
Proof.
  split; [apply alive_new|].
  split; [reflexivity|]. split; [reflexivity|].
  split; [vm_compute; intros H; apply H; reflexivity|].
  split; [vm_compute; discriminate|].
  split; [apply alive_next, established_alive|].
  vm_compute. intros H; apply H; reflexivity.
Qed.

Lemma len_slice_to {A : Type} (l : list A) (i : Z) :
  len (slice_to l i)
  = if i <? 0 then Z.max 0 (len l + i) else Z.min i (len l).
Proof.
  unfold slice_to, slice_index, len. rewrite length_firstn.
  destruct (i <? 0) eqn:E; lia.
Qed.

(** C3, as the code has it.  [receive] blocks while the semaphore is 0.
    Past the semaphore, in CLOSE_WAIT with an empty [rx_buffer] it returns
    [None] and returns before the semaphore is posted again: when the
    semaphore was 1, every further call blocks, although the session is in
    CLOSE_WAIT.  Otherwise it returns the first bytes of [rx_buffer], all of
    them without a count, at most [byte_count] with a count that is not
    negative and all but the last [-byte_count] with a negative one,
    removes them from [rx_buffer], and posts the semaphore again exactly
    when bytes are left or the state is CLOSE_WAIT.  On every session that
    exists, [receive(0)] with data in [rx_buffer] does not block, returns
    no bytes and changes nothing.  So when the peer closes a connection in
    ESTABLISHED on which nothing waits to be read, the first [receive()]
    returns [None] and the second one never returns. *)
Theorem receive_effect (byte_count : option Z) (s : TcpSession) :
  (event_rx_buffer s = 0%nat -> receive byte_count s = None)
  /\ (forall n, event_rx_buffer s = S n ->
        (rx_buffer s = [] -> state s = CLOSE_WAIT ->
           receive byte_count s = Some (None, set_event_rx_buffer n s)
           /\ state (set_event_rx_buffer n s) = CLOSE_WAIT
           /\ (n = 0%nat ->
                 forall c, receive c (set_event_rx_buffer n s) = None))
        /\ (rx_buffer s <> [] \/ state s <> CLOSE_WAIT ->
            exists data s',
              receive byte_count s = Some (Some data, s')
              /\ data ++ rx_buffer s' = rx_buffer s
              /\ len data
                   = match byte_count with
                     | Some c =>
                         if c <? 0 then Z.max 0 (len (rx_buffer s) + c)
                         else Z.min c (len (rx_buffer s))
                     | None => len (rx_buffer s)
                     end
              /\ state s' = state s
              /\ event_rx_buffer s'
                   = if negb (Nat.eqb (length (rx_buffer s')) 0)
                        || state_eqb (state s) CLOSE_WAIT
                     then S n else n))
  /\ (alive s -> rx_buffer s <> [] ->
        receive (Some 0) s = Some (Some [], s))
  /\ (forall k f r,
        state s = ESTABLISHED -> state_init s = false ->
        rx_buffer s = [] -> event_rx_buffer s = 0%nat ->
        remote_seq_rcvd s = Some r ->
        is_fin_ack f = true -> Packet.seq f = r ->
        Packet.ack f <= local_seq_sent s -> Packet.raw_data f = [] ->
        let s1 := (tcp_fsm s k (Some f) None false).1.2 in
        state s1 = CLOSE_WAIT
        /\ exists s2,
             receive byte_count s1 = Some (None, s2)
             /\ state s2 = CLOSE_WAIT
             /\ forall c, receive c s2 = None).
Proof.
  split; [|split; [|split]].
  - intros H. unfold receive. rewrite H. reflexivity.
  - intros n Hev. split.
    + intros Hrx Hst. split; [|split].
      * unfold receive. rewrite Hev. cbn. rewrite Hrx, Hst. reflexivity.
      * exact Hst.
      * intros -> c. reflexivity.
    + intros Hcase. unfold receive. rewrite Hev.
      cbn [rx_buffer state set_event_rx_buffer].
      assert (E : Nat.eqb (length (rx_buffer s)) 0
                  && state_eqb (state s) CLOSE_WAIT = false).
      { destruct Hcase as [Hrx|Hst].
        - destruct (rx_buffer s); [contradiction|reflexivity].
        - destruct (state s); try contradiction; apply andb_false_r. }
      rewrite E.
      set (count := match byte_count with
                    | Some c => Z.min c (len (rx_buffer s))
                    | None => len (rx_buffer s)
                    end).
      eexists _, _. split; [reflexivity|].
      assert (Hrx' : rx_buffer
                (if truthy (len (rx_buffer
                      (set_rx_buffer (slice_from (rx_buffer s) count)
                         (set_event_rx_buffer n s))))
                    || state_eqb
                         (state
                            (set_rx_buffer (slice_from (rx_buffer s) count)
                               (set_event_rx_buffer n s))) CLOSE_WAIT
                 then release_rx_buffer
                        (set_rx_buffer (slice_from (rx_buffer s) count)
                           (set_event_rx_buffer n s))
                 else set_rx_buffer (slice_from (rx_buffer s) count)
                        (set_event_rx_buffer n s))
              = slice_from (rx_buffer s) count).
      { destruct (truthy _ || _); reflexivity. }
      rewrite Hrx'. split; [|split; [|split]].
      * unfold slice_to, slice_from. apply firstn_skipn.
      * rewrite len_slice_to. unfold count, len.
        destruct byte_count as [c|].
        -- destruct (c <? 0) eqn:L1;
             destruct (Z.min c (Z.of_nat (length (rx_buffer s))) <? 0)
               eqn:L2; lia.
        -- destruct (Z.of_nat (length (rx_buffer s)) <? 0) eqn:L; lia.
      * destruct (truthy _ || _); reflexivity.
      * cbn [rx_buffer state set_rx_buffer set_event_rx_buffer].
        unfold truthy, len.
        replace (Z.of_nat (length (slice_from (rx_buffer s) count)) =? 0)
          with (Nat.eqb (length (slice_from (rx_buffer s) count)) 0).
        2:{ destruct (slice_from (rx_buffer s) count); reflexivity. }
        destruct (negb _ || _); reflexivity.
  - intros Ha Hrx. destruct (alive_ok s Ha) as (_ & Hsig & _).
    specialize (Hsig Hrx). unfold receive.
    destruct (event_rx_buffer s) as [|n] eqn:Hev; [lia|].
    cbn [rx_buffer state set_event_rx_buffer].
    destruct (rx_buffer s) as [|b rest] eqn:Hb; [contradiction|].
    cbn [length Nat.eqb andb]. unfold len. cbn [length].
    rewrite Z.min_l by lia. unfold slice_to, slice_from, slice_index.
    cbn [Z.ltb Z.compare Z.to_nat Nat.min firstn skipn].
    cbn [rx_buffer set_rx_buffer length]. unfold truthy.
    replace (Z.of_nat (S (length rest)) =? 0) with false
      by (symmetry; apply Z.eqb_neq; lia).
    cbn [negb orb]. f_equal. f_equal.
    destruct s. cbn in *. subst. reflexivity.
  - intros k f r Hst Hinit Hrx Hev Hr Hf Hseq Hack Hdata s1.
    assert (E : tcp_fsm s k (Some f) None false
                = (None,
                   change_state CLOSE_WAIT
                     (release_rx_buffer (process_ack_packet s k f true).1),
                   (process_ack_packet s k f true).2)).
    { unfold tcp_fsm. rewrite Hst. unfold tcp_fsm_established.
      rewrite Hinit. unfold returned.
      assert (Hs : sane s f = true).
      { unfold sane, seq_expected. rewrite Hr. lia. }
      assert (Hna : is_ack f = false).
      { unfold is_ack, is_fin_ack, py_all, py_any in *.
        cbn [forallb existsb] in *.
        destruct (Packet.flag_ack f), (Packet.flag_syn f),
          (Packet.flag_rst f), (Packet.flag_fin f);
          try discriminate Hf; reflexivity. }
      unfold when_packet. rewrite Hna, Hf, Hs. cbn [andb].
      destruct (process_ack_packet s k f true) as [s' k']. reflexivity. }
    destruct (process_ack_packet_session s k f true)
      as (_ & _ & Hrx1 & _ & _ & _ & Hst1 & _).
    assert (Hev1 : event_rx_buffer (process_ack_packet s k f true).1
                   = 0%nat).
    { unfold process_ack_packet. rewrite Hdata.
      cbn [length Nat.eqb negb andb]. cbn. exact Hev. }
    subst s1. rewrite E. cbn [fst snd].
    set (s0 := (process_ack_packet s k f true).1) in *.
    rewrite Hdata, app_nil_r, Hrx in Hrx1.
    split; [reflexivity|].
    exists (set_event_rx_buffer 0
              (change_state CLOSE_WAIT (release_rx_buffer s0))).
    split; [|split].
    + unfold receive.
      cbn [event_rx_buffer change_state release_rx_buffer
           set_event_rx_buffer set_state set_state_init rx_buffer state].
      rewrite Hev1, Hrx1. reflexivity.
    + reflexivity.
    + intros c. reflexivity.
Qed.

(** The peer closes the connection of the example while [rx_buffer] is
    empty: the first [receive()] returns [None], and a second one blocks.
    With two bytes in [rx_buffer], [receive(1)] returns the first and
    leaves the second. *)
Lemma receive_effect_witness :
  (exists s2,
     receive None
       (tcp_fsm Example.established.1 Example.established.2
          (Some (Example.from_peer false true true false 5001 1001 []))
          None false).1.2
     = Some (None, s2)
     /\ state s2 = CLOSE_WAIT
     /\ forall c, receive c s2 = None)
  /\ (exists data s',
        receive (Some 1) Example.data_arrived.1 = Some (Some data, s')
        /\ data ++ rx_buffer s' = [x41; x42]
        /\ len data = 1).
Proof.
  split.
  - destruct (proj2 (proj2 (proj2
                (receive_effect None Example.established.1)))
                Example.established.2
                (Example.from_peer false true true false 5001 1001 []) 5001)
      as [_ H]; [.. | exact H]; vm_compute; try reflexivity; discriminate.
  - destruct (proj2 (proj1 (proj2
                (receive_effect (Some 1) Example.data_arrived.1))
                0%nat eq_refl))
      as (data & s' & H1 & H2 & H3 & _).
    + left. vm_compute. discriminate.
    + exists data, s'. split; [exact H1|]. split; [exact H2|exact H3].
Defined.

(** C5 as stated fails in three ways, each on a session that exists and
    with a packet that its handler passes on to [__process_ack_packet].
    When the acknowledgement of the FIN is processed, nothing is removed
    from the empty [tx_buffer], yet [tx_buffer_seq_mod] goes up by one.
    When a session that was closed in SYN_RCVD gets an ACK that does not
    even acknowledge its SYN, the offset is -1: nothing is removed and
    [tx_buffer_seq_mod] goes back by one.  And when the sequence numbers of
    a session have run past 2^32, the acknowledgement that the 32 bits of
    the header carry is smaller than [local_seq_ackd]: the maximum of the
    code keeps the old value and [tx_buffer] keeps its bytes, where the
    maximum modulo 2^32 is the new value. *)
Lemma process_ack_packet_advances_past_drained :
  alive Example.fin_sent.1 /\ alive Example.closed_early.1
  /\ alive Example.high_sent.1
  /\ (let s := Example.fin_sent.1 in
   let s' :=
     (tcp_fsm s Example.fin_sent.2 (Some Example.fin_ack) None false).1.2 in
   state s = FIN_WAIT_1
   /\ tx_buffer s = [] /\ tx_buffer s' = []
   /\ len (tx_buffer s) - len (tx_buffer s') = 0
   /\ tx_buffer_seq_mod s' - tx_buffer_seq_mod s = 1)
  /\ (let s := Example.closed_early.1 in
      let s' :=
        (tcp_fsm s Example.closed_early.2 (Some Example.stale_ack) None
           false).1.2 in
      state s = FIN_WAIT_1
      /\ tx_buffer s = [] /\ tx_buffer s' = []
      /\ local_seq_ackd s' = 1000
      /\ tx_buffer_seq_mod s = 1001 /\ tx_buffer_seq_mod s' = 1000)
  /\ (let s := Example.high_sent.1 in
      let s' :=
        (tcp_fsm s Example.high_sent.2 (Some Example.wrapped_ack) None
           false).1.2 in
      state s = ESTABLISHED
      /\ local_seq_sent s = 4294967311
      /\ Packet.ack Example.wrapped_ack = local_seq_sent s mod 2 ^ 32
      /\ local_seq_ackd s = 4294967291
      /\ local_seq_ackd s' = 4294967291
      /\ wrap_max (local_seq_ackd s) (Packet.ack Example.wrapped_ack) = 15
      /\ tx_buffer s' = tx_buffer s
      /\ length (tx_buffer s') = 20%nat).
Proof.
  split; [|split; [|split]].
  - unfold Example.fin_sent. apply alive_next, established_alive.
  - assert (E : Example.listening.1
                = (happen (CallFsm None (Some SYS_LISTEN) false)
                     Example.fresh.1 Example.fresh.2).1)
      by (vm_compute; reflexivity).
    unfold Example.closed_early. apply happen_all_alive. rewrite E.
    apply alive_next, alive_new.
  - assert (E : Example.high_sent.1
                = (happen_all
                     [CallFsm None (Some SYS_CONNECT) false;
                      CallFsm
                        (Some (Example.from_peer true true false false 5000
                                 4294967291 []))
                        None false;
                      CallFsm None None true;
                      CallSend Example.twenty_bytes;
                      CallFsm None None true]
                     (new_session Example.high_stack "192.168.9.7" 5000
                        "192.168.9.102" 7 (Some 0%nat)).1
                     (new_session Example.high_stack "192.168.9.7" 5000
                        "192.168.9.102" 7 (Some 0%nat)).2).1)
      by (vm_compute; reflexivity).
    rewrite E. apply happen_all_alive, alive_new.
  - split; [|split]; vm_compute; repeat split; reflexivity.
Qed.


End AliveFacts.

(** ** The TCP session: a connection attempt that nobody answers *)

Section UnansweredFacts.

Import Tcp.

Variables (mtu0 win0 mss0 : Z) (rnd : nat -> Z).
Variables (lip : string) (lport : Z) (rip : string) (rport : Z).
Variable sock : option nat.

Abbreviation system :=
  (phase_system mtu0 win0 mss0 rnd lip lport rip rport sock).

Lemma connect_issued_phase :
  connect_issued mtu0 win0 mss0 rnd lip lport rip rport sock
    = system Issued 0.
Proof.
  unfold connect_issued, issue_connect, boot, connect_syscall. cbn.
  match goal with
  | |- context [set_local_seq_sent ?x] =>
      replace x with (rnd 0 + 1) by (unfold len; cbn; lia)
  end.
  reflexivity.
Qed.

Lemma timers_tick_empty :
  StackTimer.cleanup_timers (StackTimer.decrement_timers ∅) = ∅.
Proof.
  unfold StackTimer.cleanup_timers, StackTimer.decrement_timers.
  rewrite fmap_empty. apply map_filter_empty.
Qed.

Lemma timers_tick_singleton (nm : string) (v : Z) :
  StackTimer.cleanup_timers (StackTimer.decrement_timers {[nm := v]})
    = if v =? 1 then ∅ else {[nm := v - 1]}.
Proof.
  unfold StackTimer.cleanup_timers, StackTimer.decrement_timers.
  rewrite map_fmap_singleton, map_filter_singleton. cbn [snd].
  destruct (v =? 1) eqn:E; case_decide; try reflexivity; lia.
Qed.

Lemma timer_expired_empty (nm : string) :
  StackTimer.timer_expired nm ∅ = true.
Proof. unfold StackTimer.timer_expired. rewrite lookup_empty. reflexivity. Qed.

Lemma timer_expired_singleton (nm : string) (v : Z) :
  StackTimer.timer_expired nm {[nm := v]} = negb (truthy v).
Proof.
  unfold StackTimer.timer_expired. rewrite lookup_singleton_eq. reflexivity.
Qed.

Hypothesis rnd_nonzero : rnd 0%nat <> 0.

#[local] Arguments tcp_session_id : simpl never.

Lemma iteration_idle count ticks fired :
  ticks <> 1 -> ticks <> 0 ->
  thread_timer_iteration (system (Waiting count ticks) fired)
    = (None, system (Waiting count (ticks - 1)) (S fired)).
Proof.
  intros H1 H0. unfold thread_timer_iteration, phase_system.
  cbn [session stack tasks timers phase_stack].
  rewrite timers_tick_singleton.
  apply Z.eqb_neq in H1. rewrite H1.
  unfold StackTimer.tick_tasks, StackTimer.tick.
  cbn [StackTimer.remaining_delay StackTimer.with_remaining StackTimer.stops
       StackTimer.stop_condition StackTimer.method].
  change (truthy (1 - 1)) with false. cbv beta iota.
  unfold invoke. cbn [fst snd]. unfold tcp_fsm.
  cbn [state phase_session]. unfold tcp_fsm_syn_sent.
  cbn [state_init phase_session].
  unfold timer_expired. cbn [timers set_timers].
  rewrite timer_expired_singleton.
  assert (Ht : truthy (ticks - 1) = true)
    by (unfold truthy; apply negb_true_iff, Z.eqb_neq; lia).
  rewrite Ht. cbn [negb andb when_packet syscall_is].
  reflexivity.
Qed.

Ltac enter_handler :=
  unfold thread_timer_iteration, phase_system;
  cbn [session stack tasks timers phase_stack];
  rewrite ?timers_tick_singleton, ?timers_tick_empty;
  unfold StackTimer.tick_tasks, StackTimer.tick;
  cbn [StackTimer.remaining_delay StackTimer.with_remaining StackTimer.stops
       StackTimer.stop_condition StackTimer.method];
  change (truthy (1 - 1)) with false; cbv beta iota;
  unfold invoke; cbn [fst snd]; unfold tcp_fsm;
  cbn [state phase_session].

Lemma ackd_before_sent : (rnd 0%nat <? rnd 0%nat + 1) = true.
Proof. apply Z.ltb_lt. lia. Qed.

Lemma iteration_issued fired :
  thread_timer_iteration (system Issued fired)
    = (None, system (Waiting 0 PACKET_RESEND_DELAY) (S fired)).
Proof.
  enter_handler. unfold tcp_fsm_syn_sent.
  cbn [state_init phase_session]. cbv beta iota.
  unfold timer_expired, register_timer, StackTimer.register_timer.
  cbn [timers set_timers phase_stack]. rewrite insert_empty.
  change (tcp_session_id
            (set_syn_sent_resend_count (Some 0%nat)
               (set_state_init false
                  (phase_session win0 mss0 rnd lip lport rip rport sock
                     Issued))))
    with (tcp_session_id
            (phase_session win0 mss0 rnd lip lport rip rport sock Issued)).
  rewrite timer_expired_singleton.
  cbn [negb andb when_packet syscall_is].
  reflexivity.
Qed.

Lemma iteration_again count fired :
  count <> PACKET_RESEND_COUNT ->
  thread_timer_iteration (system (Waiting count 1) fired)
    = (None,
       system
         (Waiting (S count)
            (PACKET_RESEND_DELAY * Z.shiftl 1 (Z.of_nat (S count))))
         (S fired)).
Proof.
  intros Hc. enter_handler. unfold tcp_fsm_syn_sent.
  cbn [state_init phase_session Z.eqb].
  unfold timer_expired. cbn [timers set_timers].
  rewrite timer_expired_empty.
  cbn [local_seq_ackd local_seq_sent syn_sent_resend_count phase_session].
  rewrite ackd_before_sent. cbn [andb].
  apply Nat.eqb_neq in Hc. rewrite Hc.
  unfold send_packet, effective_seq.
  cbn [local_seq_ackd local_seq_sent phase_session].
  assert (Ht : truthy (rnd 0%nat) = true)
    by (unfold truthy; apply negb_true_iff, Z.eqb_neq; exact rnd_nonzero).
  rewrite Ht.
  replace (rnd 0%nat + len [] + Z.b2z true + Z.b2z false)
    with (rnd 0%nat + 1) by (unfold len; cbn; lia).
  cbv beta iota zeta.
  unfold register_timer, StackTimer.register_timer.
  cbn [timers set_timers set_phtx_tcp phtx_tcp phase_stack state
       set_syn_sent_resend_count set_local_seq_sent set_remote_seq_ackd
       state_eqb phase_session].
  change ((1 =? 1)%positive) with true. cbv iota.
  rewrite insert_empty.
  match goal with
  | |- context [repeat ?x ?n ++ [?y]] =>
      change (repeat x n ++ [y]) with (repeat x n ++ [x]);
      rewrite <- (repeat_cons n x)
  end.
  reflexivity.
Qed.

Lemma iteration_give_up fired :
  thread_timer_iteration (system (Waiting PACKET_RESEND_COUNT 1) fired)
    = (None, system (GivenUp true) (S fired)).
Proof.
  enter_handler. unfold tcp_fsm_syn_sent.
  cbn [state_init phase_session Z.eqb].
  unfold timer_expired. cbn [timers set_timers].
  change ((1 =? 1)%positive) with true. cbv iota.
  rewrite timer_expired_empty.
  cbn [local_seq_ackd local_seq_sent syn_sent_resend_count phase_session].
  rewrite ackd_before_sent. reflexivity.
Qed.

Lemma iteration_given_up init fired :
  thread_timer_iteration (system (GivenUp init) fired)
    = (None, system (GivenUp false) (S fired)).
Proof.
  enter_handler. destruct init; reflexivity.
Qed.

Lemma iteration_phase p fired :
  reachable_phase p ->
  thread_timer_iteration (system p fired)
    = (None, system (next_phase p) (S fired)).
Proof.
  destruct p as [|count ticks|init]; cbn [reachable_phase next_phase].
  - intros _. apply iteration_issued.
  - intros [H1 H2]. destruct (ticks =? 1) eqn:E.
    + apply Z.eqb_eq in E. subst ticks.
      destruct (Nat.eqb count PACKET_RESEND_COUNT) eqn:C.
      * apply Nat.eqb_eq in C. subst count. apply iteration_give_up.
      * apply Nat.eqb_neq in C. apply iteration_again. exact C.
    + apply Z.eqb_neq in E. apply iteration_idle; lia.
  - intros _. apply iteration_given_up.
Qed.

Lemma next_phase_after n :
  0 <= n -> next_phase (phase_after n) = phase_after (n + 1).
Proof.
  intros Hn. unfold phase_after.
  repeat match goal with
         | |- context [?a <=? ?b] => destruct (Z.leb_spec a b)
         end; try lia;
  unfold next_phase, PACKET_RESEND_DELAY, PACKET_RESEND_COUNT;
  repeat match goal with
         | |- context [?a =? ?b] => destruct (Z.eqb_spec a b)
         end; try lia; try reflexivity; cbn; f_equal; try lia;
  match goal with
  | |- ?l = _ => let v := eval vm_compute in l in change l with v
  end; lia.
Qed.

Lemma phase_after_reachable n : reachable_phase (phase_after n).
Proof.
  unfold phase_after.
  repeat match goal with
         | |- context [?a <=? ?b] => destruct (Z.leb_spec a b)
         end; cbn; unfold PACKET_RESEND_COUNT; try lia; exact I.
Qed.

Lemma thread_timer_phase n : forall m fired,
  0 <= m ->
  thread_timer n (system (phase_after m) fired)
    = (None, system (phase_after (m + Z.of_nat n)) (fired + n)).
Proof.
  induction n as [|n IH]; intros m fired Hm.
  - cbn [thread_timer]. rewrite Z.add_0_r, Nat.add_0_r. reflexivity.
  - cbn [thread_timer].
    rewrite (iteration_phase _ _ (phase_after_reachable m)).
    rewrite next_phase_after by exact Hm.
    rewrite IH by lia. f_equal. f_equal; [f_equal; lia|lia].
Qed.

Lemma thread_timer_unanswered n :
  thread_timer n (connect_issued mtu0 win0 mss0 rnd lip lport rip rport sock)
    = (None, system (phase_after (Z.of_nat n)) n).
Proof.
  rewrite connect_issued_phase.
  exact (thread_timer_phase n 0 0%nat (Z.le_refl 0)).
Qed.

End UnansweredFacts.

(** C1, as the code has it.  After [connect()] on a new session whose
    initial sequence number is not 0, with no packet ever arriving, the
    timer thread never meets an exception, and after [n] of its iterations:
    the segments sent are the SYN, all with the initial sequence number
    [local_seq_ackd], one up to iteration 1000, two up to 3000, three up to
    7000, four up to 15000 and five from then on; the state is SYN_SENT up
    to iteration 31000 and CLOSED from iteration 31001 on; and the
    semaphore of [connect()] is never posted, so [connect()] is still
    blocked and has returned nothing. *)
Theorem connect_unanswered_never_returns
    (mtu0 win0 mss0 : Z) (rnd : nat -> Z) (lip : string) (lport : Z)
    (rip : string) (rport : Z) (sock : option nat) (n : nat) :
  rnd 0%nat <> 0 ->
  let r :=
    Tcp.thread_timer n
      (Tcp.connect_issued mtu0 win0 mss0 rnd lip lport rip rport sock) in
  r.1 = None
  /\ Tcp.phtx_tcp (Tcp.stack r.2)
       = repeat (Tcp.syn_segment win0 mss0 rnd lip lport rip rport)
           (Tcp.syns_after (Z.of_nat n))
  /\ Tcp.Segment.tcp_seq (Tcp.syn_segment win0 mss0 rnd lip lport rip rport)
       = Tcp.local_seq_ackd (Tcp.session r.2)
  /\ Tcp.state (Tcp.session r.2)
       = (if Z.of_nat n <=? 31000 then Tcp.SYN_SENT else Tcp.CLOSED)
  /\ Tcp.event_connect (Tcp.session r.2) = 0%nat
  /\ Tcp.connect_return (Tcp.session r.2) = None.
Proof.
  intros Hrnd r. subst r.
  rewrite (thread_timer_unanswered mtu0 win0 mss0 rnd lip lport rip rport
             sock Hrnd n).
  cbn [fst snd Tcp.session Tcp.stack Tcp.phase_system].
  split; [reflexivity|]. split; [|split; [reflexivity|]].
  - cbn [Tcp.phtx_tcp Tcp.phase_stack]. f_equal.
    unfold Tcp.phase_after, Tcp.syns_after, Tcp.PACKET_RESEND_COUNT.
    repeat match goal with
           | |- context [?a <=? ?b] => destruct (Z.leb_spec a b)
           end; try lia; reflexivity.
  - split; [|split; reflexivity].
    cbn [Tcp.state Tcp.phase_session]. unfold Tcp.phase_after.
    repeat match goal with
           | |- context [?a <=? ?b] => destruct (Z.leb_spec a b)
           end; try lia; reflexivity.
Qed.

(** The session with the initial sequence number 1000, 31001 iterations
    after [connect()]: five SYNs sent, CLOSED, and [connect()] blocked. *)
Lemma connect_unanswered_never_returns_witness :
  let r :=
    Tcp.thread_timer (Z.to_nat 31001)
      (Tcp.connect_issued 1500 65535 1460 (fun _ => 1000)
         "192.168.9.7" 5000 "192.168.9.102" 7 (Some 0%nat)) in
  r.1 = None
  /\ Tcp.phtx_tcp (Tcp.stack r.2)
       = repeat
           (Tcp.syn_segment 65535 1460 (fun _ => 1000)
              "192.168.9.7" 5000 "192.168.9.102" 7)
           (Tcp.syns_after (Z.of_nat (Z.to_nat 31001)))
  /\ Tcp.Segment.tcp_seq
       (Tcp.syn_segment 65535 1460 (fun _ => 1000)
          "192.168.9.7" 5000 "192.168.9.102" 7)
       = Tcp.local_seq_ackd (Tcp.session r.2)
  /\ Tcp.state (Tcp.session r.2)
       = (if Z.of_nat (Z.to_nat 31001) <=? 31000
          then Tcp.SYN_SENT else Tcp.CLOSED)
  /\ Tcp.event_connect (Tcp.session r.2) = 0%nat
  /\ Tcp.connect_return (Tcp.session r.2) = None.
Proof.
  apply (connect_unanswered_never_returns 1500 65535 1460 (fun _ => 1000)
           "192.168.9.7" 5000 "192.168.9.102" 7 (Some 0%nat)
           (Z.to_nat 31001)).
  discriminate.
Defined.

(** ** The claim of the address *)

Section ArpFacts.

Import Arp.

Lemma phrx_arp_conflict h f :
  conflicting (stack_mac_address h) (stack_ip_address h) f ->
  ether_dst (ether_packet_rx f) = stack_mac_address h ->
  arp_probe_conflict_detected (phrx_arp h f) = true.
Proof.
  intros (Hop & Htha & Hspa & Htpa) Hdst. unfold phrx_arp.
  rewrite Hop, Hdst, Htha, Hspa, Htpa, !String.eqb_refl.
  reflexivity.
Qed.

(** [phrx_arp] never lowers the flag, never claims the address, and sends
    replies only. *)
Lemma phrx_arp_keeps h f :
  stack_mac_address (phrx_arp h f) = stack_mac_address h
  /\ stack_ip_address (phrx_arp h f) = stack_ip_address h
  /\ ip_address_claimed (phrx_arp h f) = ip_address_claimed h
  /\ (arp_probe_conflict_detected h = true ->
        arp_probe_conflict_detected (phrx_arp h f) = true)
  /\ (phtx_arp (phrx_arp h f) = phtx_arp h
      \/ exists t, phtx_arp (phrx_arp h f) = phtx_arp h ++ [t]
                   /\ tx_arp_oper t = ARP_OP_REPLY).
Proof.
  unfold phrx_arp.
  destruct (arp_oper (arp_packet_rx f) =? ARP_OP_REQUEST).
  - destruct (String.eqb _ _); cbn; auto 10.
    repeat split; auto. right. eexists. split; reflexivity.
  - destruct (arp_oper (arp_packet_rx f) =? ARP_OP_REPLY); [|auto 10].
    destruct (String.eqb (ether_dst _) (stack_mac_address h) && _);
      [cbn; auto 10|].
    destruct (String.eqb (ether_dst _) (stack_mac_address h));
      [cbn; auto 10|].
    destruct (_ && _); cbn; auto 10.
Qed.

Lemma phrx_arp_unclaimed mac ip h f :
  unclaimed mac ip h -> unclaimed mac ip (phrx_arp h f).
Proof.
  intros (Hm & Hi & Hc & Ht).
  destruct (phrx_arp_keeps h f) as (Km & Ki & Kc & _ & Kt).
  unfold unclaimed. rewrite Km, Ki, Kc. repeat split; try assumption.
  destruct Kt as [-> | (t & -> & Hop)]; [exact Ht|].
  apply Forall_app. split; [exact Ht|].
  constructor; [|constructor]. intros [Hreq _]. rewrite Hop in Hreq.
  discriminate Hreq.
Qed.

Lemma receive_all_unclaimed mac ip fs : forall h,
  unclaimed mac ip h -> unclaimed mac ip (receive_all fs h).
Proof.
  induction fs as [|f fs IH]; intros h Hu; [exact Hu|].
  cbn. apply IH, phrx_arp_unclaimed, Hu.
Qed.

Lemma receive_all_flag_stays fs : forall h,
  arp_probe_conflict_detected h = true ->
  arp_probe_conflict_detected (receive_all fs h) = true.
Proof.
  induction fs as [|f fs IH]; intros h Hf; [exact Hf|].
  cbn. apply IH. apply phrx_arp_keeps. exact Hf.
Qed.

Lemma receive_all_conflict mac ip f fs : forall h,
  stack_mac_address h = mac -> stack_ip_address h = ip ->
  In f fs -> conflicting mac ip f ->
  ether_dst (ether_packet_rx f) = mac ->
  arp_probe_conflict_detected (receive_all fs h) = true.
Proof.
  induction fs as [|g fs IH]; intros h Hm Hi Hin Hc Hd; [contradiction|].
  cbn. destruct Hin as [-> | Hin].
  - apply receive_all_flag_stays. apply phrx_arp_conflict.
    + rewrite Hm, Hi. exact Hc.
    + rewrite Hm. exact Hd.
  - destruct (phrx_arp_keeps h g) as (Km & Ki & _).
    apply IH; try assumption; congruence.
Qed.

Lemma send_arp_probe_unclaimed mac ip h :
  ip <> "0.0.0.0"%string ->
  unclaimed mac ip h -> unclaimed mac ip (send_arp_probe h).
Proof.
  intros Hip (Hm & Hi & Hc & Ht). unfold unclaimed, send_arp_probe.
  cbn. repeat split; try assumption.
  apply Forall_app. split; [exact Ht|].
  constructor; [|constructor]. intros [_ Hspa]. cbn in Hspa. congruence.
Qed.

(** The loop of the probes: with a conflicting reply during one of its
    rounds it ends in the [return], and nothing was claimed or announced. *)
Lemma probe_conflict mac ip during f rounds : forall h i,
  ip <> "0.0.0.0"%string ->
  unclaimed mac ip h ->
  In i rounds -> In f (during i) -> conflicting mac ip f ->
  ether_dst (ether_packet_rx f) = mac ->
  (probe rounds during h).1 = true
  /\ arp_probe_conflict_detected (probe rounds during h).2 = true
  /\ unclaimed mac ip (probe rounds during h).2.
Proof.
  induction rounds as [|j rounds IH]; intros h i Hip Hu Hi Hf Hc Hd;
    [contradiction|].
  cbn [probe].
  assert (Hu1 : unclaimed mac ip (receive_all (during j) (send_arp_probe h)))
    by (apply receive_all_unclaimed, send_arp_probe_unclaimed; assumption).
  destruct (arp_probe_conflict_detected
              (receive_all (during j) (send_arp_probe h))) eqn:E.
  - cbn [fst snd]. auto.
  - destruct Hi as [-> | Hi].
    + rewrite (receive_all_conflict mac ip f (during i)) in E;
        try assumption; try discriminate.
      * apply Hu.
      * apply Hu.
    + apply (IH _ i); assumption.
Qed.

(** C9, as the code has it.  An ARP reply with [arp_tha] the MAC address
    of the stack, [arp_spa] its IP address and [arp_tpa] 0.0.0.0 that comes
    in a frame addressed to the MAC address of the stack sets the conflict
    flag.  When such a reply is handled in the second after one of the three
    probes, [__init__] returns with the flag set, [ip_address_claimed]
    still false, and no announcement (no request with the address of the
    stack as sender) among the frames sent. *)
Theorem probe_conflict_aborts_claim mac ip cache during f i :
  ip <> "0.0.0.0"%string ->
  (i < 3)%nat -> In f (during i) ->
  conflicting mac ip f ->
  ether_dst (ether_packet_rx f) = mac ->
  (forall h, stack_mac_address h = mac -> stack_ip_address h = ip ->
     arp_probe_conflict_detected (phrx_arp h f) = true)
  /\ arp_probe_conflict_detected (init mac ip cache during) = true
  /\ ip_address_claimed (init mac ip cache during) = false
  /\ Forall (fun t => ~ announces ip t) (phtx_arp (init mac ip cache during)).
Proof.
  intros Hip Hi Hf Hc Hd. split.
  - intros h Hm Hp. apply phrx_arp_conflict; [rewrite Hm, Hp|rewrite Hm];
      assumption.
  - unfold init.
    destruct (probe_conflict mac ip during f (seq 0 3)
                (mkHandler false false mac ip cache []) i)
      as (Hstop & Hflag & Hu); try assumption.
    + repeat split. constructor.
    + apply in_seq. lia.
    + destruct (probe (seq 0 3) during (mkHandler false false mac ip cache []))
        as [stop h1]. cbn [fst snd] in *. subst stop.
      split; [exact Hflag|]. split; apply Hu.
Qed.

Lemma probe_conflict_aborts_claim_witness :
  (forall h, stack_mac_address h = "02:00:00:77:77:77"%string ->
     stack_ip_address h = "192.168.9.7"%string ->
     arp_probe_conflict_detected (phrx_arp h unicast_reply) = true)
  /\ arp_probe_conflict_detected
       (init "02:00:00:77:77:77" "192.168.9.7" ∅
          (fun i => if Nat.eqb i 1 then [unicast_reply] else [])) = true
  /\ ip_address_claimed
       (init "02:00:00:77:77:77" "192.168.9.7" ∅
          (fun i => if Nat.eqb i 1 then [unicast_reply] else [])) = false
  /\ Forall (fun t => ~ announces "192.168.9.7" t)
       (phtx_arp
          (init "02:00:00:77:77:77" "192.168.9.7" ∅
             (fun i => if Nat.eqb i 1 then [unicast_reply] else []))).
Proof.
  apply (probe_conflict_aborts_claim "02:00:00:77:77:77" "192.168.9.7" ∅
           (fun i => if Nat.eqb i 1 then [unicast_reply] else [])
           unicast_reply 1%nat).
  - discriminate.
  - lia.
  - left. reflexivity.
  - repeat split.
  - reflexivity.
Defined.

(** C9 as stated fails for a reply that is broadcast on the Ethernet: it
    has the three ARP fields of the claim, the flag stays down, the address
    is claimed and the announcement is sent. *)
Lemma broadcast_reply_sets_no_flag :
  let h :=
    init "02:00:00:77:77:77" "192.168.9.7" ∅
      (fun i => if Nat.eqb i 0 then [broadcast_reply] else []) in
  conflicting "02:00:00:77:77:77" "192.168.9.7" broadcast_reply
  /\ arp_probe_conflict_detected h = false
  /\ ip_address_claimed h = true
  /\ In (announcement h) (phtx_arp h).
Proof.
  split; [repeat split|].
  split; [reflexivity|]. split; [reflexivity|].
  cbn. auto 10.
Qed.

End ArpFacts.

(** ** The DHCP packet *)

Section DhcpFacts.

Import Dhcp.

Lemma length_be_encode n : forall v, length (be_encode n v) = n.
Proof.
  induction n as [|n IH]; intros v; [reflexivity|].
  cbn [be_encode]. rewrite length_app, IH. cbn. lia.
Qed.

Lemma length_bootp_header xid mac : length (bootp_header xid mac) = 236%nat.
Proof.
  unfold bootp_header.
  rewrite !length_app, length_be_encode, !repeat_length, length_firstn,
    length_app, repeat_length.
  cbn [length]. lia.
Qed.

Lemma length_slice {A : Type} (l : list A) (i j : Z) :
  0 <= i <= j ->
  length (slice l i j)
    = (Nat.min (Z.to_nat j) (length l) - Z.to_nat i)%nat.
Proof.
  intros H. unfold slice, slice_index.
  destruct (i <? 0) eqn:Ei; [lia|]. destruct (j <? 0) eqn:Ej; [lia|].
  rewrite length_firstn, length_skipn. lia.
Qed.

Lemma length_header (l : list byte) :
  length (slice_to l DHCP_HEADER_LEN) = Nat.min 224 (length l).
Proof.
  unfold slice_to, slice_index, DHCP_HEADER_LEN. cbn [Z.ltb Z.compare].
  rewrite length_firstn. lia.
Qed.

Lemma byte_at_returns (b : list byte) (i : nat) :
  (i < length b)%nat -> exists v, byte_at b i = inr v.
Proof.
  intros H. unfold byte_at.
  destruct (lookup_lt_is_Some_2 b i H) as [x ->]. eauto.
Qed.

Lemma unpack_uint_returns (w : nat) (b : list byte) :
  length b = w -> unpack_uint w b = inr (be_decode b).
Proof. intros H. unfold unpack_uint. rewrite H, Nat.eqb_refl. reflexivity. Qed.

Lemma unpack_s_returns (n : nat) (b : list byte) :
  length b = n -> unpack_s n b = inr b.
Proof. intros H. unfold unpack_s. rewrite H, Nat.eqb_refl. reflexivity. Qed.

Lemma inet_ntoa_returns (b : list byte) :
  length b = 4%nat -> exists s, inet_ntoa b = inr s.
Proof.
  intros H. destruct b as [|b0 [|b1 [|b2 [|b3 [|b4 b]]]]]; try discriminate.
  cbn. eauto.
Qed.

(** The parsing branch of [__init__] reads [self.dhcp_hw_len], an attribute
    that nothing sets: on a payload of 28 bytes or more it raises
    [AttributeError]. *)
Lemma parse_raises_attribute_error (p : ParentPacket) :
  (28 <= length (raw_data p))%nat ->
  parse p = inl (AttributeError "dhcp_hw_len").
Proof.
  intros Hlen. unfold parse.
  set (h := slice_to (raw_data p) DHCP_HEADER_LEN).
  assert (Hh : (28 <= length h)%nat)
    by (unfold h; rewrite length_header; lia).
  destruct (byte_at_returns h 0) as [v0 ->]; [lia|].
  destruct (byte_at_returns h 1) as [v1 ->]; [lia|].
  destruct (byte_at_returns h 2) as [v2 ->]; [lia|].
  destruct (byte_at_returns h 3) as [v3 ->]; [lia|].
  cbn [mbind exn_bind].
  rewrite (unpack_uint_returns 4 (slice h 4 8))
    by (rewrite length_slice; lia).
  rewrite (unpack_uint_returns 2 (slice h 8 10))
    by (rewrite length_slice; lia).
  rewrite (unpack_uint_returns 2 (slice h 10 12))
    by (rewrite length_slice; lia).
  cbn [mbind exn_bind].
  rewrite (unpack_s_returns 4 (slice h 12 16)),
    (unpack_s_returns 4 (slice h 16 20)),
    (unpack_s_returns 4 (slice h 20 24)),
    (unpack_s_returns 4 (slice h 24 28))
    by (rewrite length_slice; lia).
  cbn [mbind exn_bind].
  destruct (inet_ntoa_returns (slice h 12 16)) as [a0 ->];
    [rewrite length_slice; lia|].
  destruct (inet_ntoa_returns (slice h 16 20)) as [a1 ->];
    [rewrite length_slice; lia|].
  destruct (inet_ntoa_returns (slice h 20 24)) as [a2 ->];
    [rewrite length_slice; lia|].
  destruct (inet_ntoa_returns (slice h 24 28)) as [a3 ->];
    [rewrite length_slice; lia|].
  cbn [mbind exn_bind]. reflexivity.
Qed.

(** And so it never returns a packet. *)
Lemma parse_never_returns (p : ParentPacket) : exists e, parse p = inl e.
Proof.
  unfold parse.
  repeat match goal with
         | |- context [mbind _ ?c] =>
             lazymatch c with
             | context [mbind] => fail
             | getattr _ _ => fail
             | _ => destruct c as [?e|?v]; cbn [mbind exn_bind]
             end
         end; eauto.
Qed.

Lemma firstn_exact {A : Type} (n : nat) (l k : list A) :
  length l = n -> firstn n (l ++ k) = l.
Proof.
  intros <-. rewrite firstn_app, Nat.sub_diag, firstn_all. cbn.
  apply app_nil_r.
Qed.

(** Read the attributes that the goal looks up in a built packet. *)
Ltac read_attributes :=
  repeat match goal with
         | |- context [getattr ?o ?n] =>
             let v := eval vm_compute in (getattr o n) in
             change (getattr o n) with v
         end.

Lemma raw_packet_built xid chaddr mac options :
  0 <= xid < 2 ^ 32 ->
  fromhex (remove_colons chaddr) = inr mac ->
  raw_packet (setattr "raw_options" (VBytes options) (build xid chaddr))
    = inr (bootp_header xid mac ++ magic_cookie ++ options).
Proof.
  intros Hxid Hmac. unfold raw_packet, raw_header.
  read_attributes. cbn [mbind exn_bind as_int as_str].
  rewrite Hmac. cbn [mbind exn_bind].
  change (inet_aton "0.0.0.0") with (@inr exn _ (repeat x00 4)).
  cbn [mbind exn_bind].
  assert (Hp : pack_uint 4 xid = inr (be_encode 4 xid)).
  { unfold pack_uint.
    replace ((0 <=? xid) && (xid <? 256 ^ Z.of_nat 4)) with true;
      [reflexivity|].
    symmetry. apply andb_true_iff. split; [apply Z.leb_le|apply Z.ltb_lt];
      change (256 ^ Z.of_nat 4) with (2 ^ 32); lia. }
  rewrite Hp.
  change (pack_uint 1 1) with (@inr exn _ [x01]).
  change (pack_uint 1 6) with (@inr exn _ [x06]).
  change (pack_uint 1 0) with (@inr exn _ [x00]).
  change (pack_uint 2 0) with (@inr exn _ [x00; x00]).
  change (pack_uint 2 (Z.shiftl (Z.b2z false) 15))
    with (@inr exn _ [x00; x00]).
  cbn [mbind exn_bind pack_s].
  unfold bootp_header.
  rewrite (firstn_exact 16 (firstn 16 (mac ++ repeat x00 16))).
  2:{ rewrite length_firstn, length_app, repeat_length. lia. }
  rewrite <- !app_assoc. reflexivity.
Qed.

(** C8, as the code has it.  A packet that the constructor builds, with
    any options put into it, is encoded as the 236 bytes of the BOOTP
    header, the four bytes 63 82 53 63 and the options; and the constructor
    does not decode it: on that encoding, as on every payload of 28 bytes or
    more, it raises [AttributeError] for the attribute [dhcp_hw_len], and on
    no payload does it return a packet. *)
Theorem dhcp_encoded_layout_and_parse xid chaddr mac options :
  0 <= xid < 2 ^ 32 ->
  fromhex (remove_colons chaddr) = inr mac ->
  raw_packet (setattr "raw_options" (VBytes options) (build xid chaddr))
    = inr (bootp_header xid mac ++ magic_cookie ++ options)
  /\ length (bootp_header xid mac) = 236%nat
  /\ DhcpPacket
       (Some {| raw_data := bootp_header xid mac ++ magic_cookie ++ options |})
       0 ""
     = inl (AttributeError "dhcp_hw_len")
  /\ (forall p x c, exists e, DhcpPacket (Some p) x c = inl e).
Proof.
  intros Hxid Hmac. split; [apply raw_packet_built; assumption|].
  split; [apply length_bootp_header|]. split.
  - cbn [DhcpPacket]. apply parse_raises_attribute_error. cbn [raw_data].
    rewrite length_app, length_bootp_header. lia.
  - intros p x c. cbn [DhcpPacket]. apply parse_never_returns.
Qed.

Lemma dhcp_encoded_layout_and_parse_witness :
  raw_packet
    (setattr "raw_options" (VBytes [x35; x01; x01; xff])
       (build 305419896 "02:00:00:77:77:77"))
    = inr (bootp_header 305419896 [x02; x00; x00; x77; x77; x77]
           ++ magic_cookie ++ [x35; x01; x01; xff])
  /\ length (bootp_header 305419896 [x02; x00; x00; x77; x77; x77])
       = 236%nat
  /\ DhcpPacket
       (Some {| raw_data :=
                  bootp_header 305419896 [x02; x00; x00; x77; x77; x77]
                  ++ magic_cookie ++ [x35; x01; x01; xff] |})
       0 ""
     = inl (AttributeError "dhcp_hw_len")
  /\ (forall p x c, exists e, DhcpPacket (Some p) x c = inl e).
Proof.
  apply (dhcp_encoded_layout_and_parse 305419896 "02:00:00:77:77:77"
           [x02; x00; x00; x77; x77; x77] [x35; x01; x01; xff]).
  - lia.
  - reflexivity.
Defined.

End DhcpFacts.

(** ** More on the stack timer *)

Section TimerFacts.







End TimerFacts.

Section TaskFacts.

Context {W Method Stop : Type}.
Variable invoke : Method -> W -> option exn * W.
Variable holds : Stop -> W -> bool.
Variable m : Method.

(** The callable never raises. *)
Hypothesis returns : forall w, (invoke m w).1 = None.

(** A task without stop condition *)
Abbreviation plain d e r v f := (StackTimer.mkTask m d e r (@None Stop) v f).








End TaskFacts.



(** ** More on the ARP handler and the claim of the address *)

Section ArpMoreFacts.

Import Arp.










End ArpMoreFacts.

(** ** The ARP cache: lookups, expiry and refresh *)

Section ArpCacheFacts.

Import Arp.










End ArpCacheFacts.

(** ** The TCP session: segments that arrive in ESTABLISHED *)

Section EstablishedFacts.

Import Tcp.









End EstablishedFacts.

(** ** The TCP session: what a tick of the timer sends in ESTABLISHED *)

Section EstablishedTickFacts.

Import Tcp.

#[local] Arguments tcp_session_id : simpl never.







End EstablishedTickFacts.

(** ** The TCP session: opening a connection, moving data, closing *)

Section TraceFacts.

Import Tcp.

#[local] Arguments tcp_session_id : simpl never.



















End TraceFacts.

(** ** The TCP session: the end of TIME_WAIT *)

Section TimeWaitFacts.

Import Tcp.

#[local] Arguments tcp_session_id : simpl never.

(** The system of a session whose timer task has fired [f] times *)
Abbreviation ticking s k f :=
  (mkSystem s k [StackTimer.mkTask TcpFsmTimer 1 false (-1) None 1 f]).







End TimeWaitFacts.

(** ** The TCP session: what a call of the state machine sends *)

Section SegmentFacts.

Import Tcp.

#[local] Arguments tcp_session_id : simpl never.

Lemma nothing_sent k k' :
  phtx_tcp k' = phtx_tcp k -> one_segment_at_most k k'.
Proof. intros H. left. exact H. Qed.
































End SegmentFacts.
